(** * find-guardduty-user: the finding-to-identity resolver, the pagination
      walker, the configuration checks and the output formatter of main.go,
      as a shallow embedding.

    Go values are modelled as the code has them: a [*string] is an
    [option string], a slice of pointers a list of options where the code
    tests an element against nil, an [error] is its message.  The two remote
    services (GuardDuty, CloudTrail), the credential chain, the endpoint table
    and encoding/json's decoder are not code of this repository: they are the
    fields of an environment record over an abstract world, so that every
    theorem holds for every behaviour of the services. *)

From Stdlib Require Import String Ascii List Bool Arith ZArith Lia.
From Stdlib Require Import DecimalNat DecimalString.
Import ListNotations.
Open Scope string_scope.
Set Warnings "-register-all".

(** ** Small pieces of the Go runtime and of the AWS SDK *)

(** A Go [error], observed through [Error()]. *)
Definition error := string.

(** fmt's [%d] on a length. *)
Definition itoa (n : nat) : string := NilEmpty.string_of_uint (Nat.to_uint n).

(** The line feed of a raw string literal. *)
Definition nl : string := String (ascii_of_nat 10) EmptyString.

(** The message of the run-time panic raised by a nil dereference. *)
Definition nilDereference : string :=
  "runtime error: invalid memory address or nil pointer dereference".

Module aws.

(** [aws.StringValue]: the pointed-to string, or the empty string for nil. *)
Definition StringValue (p : option string) : string :=
  match p with
  | Some s => s
  | None => ""
  end.

End aws.

(** Values of encoding/json, as [interface{}] holds them after decoding into
    [map[string]interface{}]; an object is the list of its members. *)
Module json.

Inductive value : Type :=
| JNull
| JBool (b : bool)
| JNumber (literal : string)
| JString (s : string)
| JArray (items : list value)
| JObject (members : list (string * value)).

Definition object := list (string * value).

(** Indexing a Go map: the member of that name, if any. *)
Fixpoint get (k : string) (m : object) : option value :=
  match m with
  | [] => None
  | (k', v) :: rest => if String.eqb k k' then Some v else get k rest
  end.

(** The type assertion [.(map[string]interface{})] with its [ok]. *)
Definition asObject (v : option value) : option object :=
  match v with
  | Some (JObject m) => Some m
  | _ => None
  end.

(** The type assertion [.(string)] with its [ok]. *)
Definition asString (v : option value) : option string :=
  match v with
  | Some (JString s) => Some s
  | _ => None
  end.

(** The names of the members of an encoded object, in order. *)
Definition keys (v : value) : list string :=
  match v with
  | JObject m => map fst m
  | _ => []
  end.

(** The member of that name of an encoded object. *)
Definition field (k : string) (v : value) : option value :=
  match v with
  | JObject m => get k m
  | _ => None
  end.

End json.

(** The structures of service/cloudtrail the program touches.  The events of
    an answer are pointers, each of which may be nil. *)
Module cloudtrail.

Module LookupAttribute.
Record t : Type := mk {
  AttributeKey : option string;
  AttributeValue : option string
}.
End LookupAttribute.

Module LookupEventsInput.
Record t : Type := mk {
  LookupAttributes : list LookupAttribute.t;
  MaxResults : option Z
}.
End LookupEventsInput.

Module Event.
Record t : Type := mk {
  CloudTrailEvent : option string;
  Username : option string
}.
End Event.

Module LookupEventsOutput.
Record t : Type := mk {
  Events : list (option Event.t);
  NextToken : option string
}.
End LookupEventsOutput.

End cloudtrail.

(** The structures of service/guardduty the program touches.  Every nested
    structure is reached through a pointer, which may be nil. *)
Module guardduty.

Module Condition.
Record t : Type := mk {
  Eq_ : list string
}.
End Condition.

Module FindingCriteria.
Record t : Type := mk {
  Criterion : list (string * Condition.t)
}.
End FindingCriteria.

Module ListDetectorsOutput.
Record t : Type := mk {
  DetectorIds : list (option string)
}.
End ListDetectorsOutput.

Module ListFindingsInput.
Record t : Type := mk {
  DetectorId : option string;
  FindingCriteria : FindingCriteria.t;
  NextToken : option string
}.
End ListFindingsInput.

Module ListFindingsOutput.
Record t : Type := mk {
  FindingIds : list (option string);
  NextToken : option string
}.
End ListFindingsOutput.

Module GetFindingsInput.
Record t : Type := mk {
  DetectorId : option string;
  FindingIds : list (option string)
}.
End GetFindingsInput.

Module AccessKeyDetails.
Record t : Type := mk {
  AccessKeyId : option string;
  PrincipalId : option string
}.
End AccessKeyDetails.

Module Resource.
Record t : Type := mk {
  AccessKeyDetails : option AccessKeyDetails.t
}.
End Resource.

Module City.
Record t : Type := mk {
  CityName : option string
}.
End City.

Module Country.
Record t : Type := mk {
  CountryName : option string
}.
End Country.

Module RemoteIpDetails.
Record t : Type := mk {
  City : option City.t;
  Country : option Country.t;
  IpAddressV4 : option string
}.
End RemoteIpDetails.

Module AwsApiCallAction.
Record t : Type := mk {
  Api : option string;
  RemoteIpDetails : option RemoteIpDetails.t;
  ServiceName : option string
}.
End AwsApiCallAction.

Module Action.
Record t : Type := mk {
  AwsApiCallAction : option AwsApiCallAction.t
}.
End Action.

Module Service.
Record t : Type := mk {
  Action : option Action.t
}.
End Service.

Module Finding.
Record t : Type := mk {
  Id : option string;
  CreatedAt : option string;
  Resource : option Resource.t;
  Service : option Service.t
}.
End Finding.

Module GetFindingsOutput.
Record t : Type := mk {
  Findings : list (option Finding.t)
}.
End GetFindingsOutput.

End guardduty.

(** [endpoints.GuarddutyServiceID]. *)
Definition GuarddutyServiceID : string := "guardduty".

(** ** Configuration: the flags, read through viper *)

Definition AWSGuardDutyPartitionFlag : string := "aws-guardduty-partition".
Definition AWSGuardDutyRegionFlag : string := "aws-guardduty-region".
Definition ArchivedFlag : string := "archived".
Definition OutputFlag : string := "output".
Definition VerboseFlag : string := "debug-logging".

Module viper.
Record Viper : Type := mk {
  GetString : string -> string;
  GetBool : string -> bool
}.
End viper.

(** ** FindingDetail and the two printers *)

Record FindingDetail : Type := mkFindingDetail {
  ID : option string;
  CreatedAt : option string;
  AccessKeyID : option string;
  PrincipalID : option string;
  AssumedRoleARN : option string;
  Username : option string;
  IPAddress : option string;
  ServiceName : option string;
  API : option string;
  City : option string;
  Country : option string
}.

(** A member without [omitempty]: a nil pointer is encoded as [null]. *)
Definition always (name : string) (p : option string) : json.object :=
  match p with
  | Some s => [(name, json.JString s)]
  | None => [(name, json.JNull)]
  end.

(** A member tagged [omitempty]: a nil pointer leaves the member out; a
    pointer to any string, the empty one included, is encoded. *)
Definition omitempty (name : string) (p : option string) : json.object :=
  match p with
  | Some s => [(name, json.JString s)]
  | None => []
  end.

(** [json.Marshal] of a [*FindingDetail], following the struct tags in field
    order.  A structure of string pointers never fails to encode.  The result
    is the document, with the strings as the program holds them; how the
    library writes a string in the text of the document (escaping, and the
    replacement character U+FFFD for bytes that are not valid UTF-8) is not
    part of it. *)
Definition Marshal (fd : FindingDetail) : json.value * option error :=
  (json.JObject
     (always "id" (ID fd) ++
      always "createdAt" (CreatedAt fd) ++
      omitempty "accessKeyID" (AccessKeyID fd) ++
      omitempty "principalID" (PrincipalID fd) ++
      always "assumeRoleARN" (AssumedRoleARN fd) ++
      always "username" (Username fd) ++
      omitempty "ipAddress" (IPAddress fd) ++
      omitempty "serviceName" (ServiceName fd) ++
      omitempty "api" (API fd) ++
      omitempty "city" (City fd) ++
      omitempty "country" (Country fd)),
   None).

(** The template of [Print] applied to its eleven arguments: what
    [fmt.Sprintf(template, ...)] returns.  The raw literal starts with a line
    feed and every label is padded to the same column. *)
Definition template
  (id createdAt accessKeyID principalID assumedRoleARN username
   ipAddress serviceName api city country : string) : string :=
  nl ++ "Finding ID:         " ++ id ++
  nl ++ "Finding Created At: " ++ createdAt ++
  nl ++ "Access Key ID:      " ++ accessKeyID ++
  nl ++ "Principal ID:       " ++ principalID ++
  nl ++ "Assumed Role ARN:   " ++ assumedRoleARN ++
  nl ++ "Username:           " ++ username ++
  nl ++ "IPv4:               " ++ ipAddress ++
  nl ++ "Service Name:       " ++ serviceName ++
  nl ++ "API:                " ++ api ++
  nl ++ "City, Country:      " ++ city ++ ", " ++ country.

(** The text that [Print] hands to the logger. *)
Definition textBlock (fd : FindingDetail) : string :=
  template
    (aws.StringValue (ID fd))
    (aws.StringValue (CreatedAt fd))
    (aws.StringValue (AccessKeyID fd))
    (aws.StringValue (PrincipalID fd))
    (aws.StringValue (AssumedRoleARN fd))
    (aws.StringValue (Username fd))
    (aws.StringValue (IPAddress fd))
    (aws.StringValue (ServiceName fd))
    (aws.StringValue (API fd))
    (aws.StringValue (City fd))
    (aws.StringValue (Country fd)).

(** ** The environment, the observable state and the monad of the program *)

(** What the program calls and does not define.  A remote call returns what
    the Go method returns, an output and an error, together with the next
    world; nothing is assumed about how the two relate.  [Unmarshal] is
    [json.Unmarshal] into a [map[string]interface{}]: the decoded map and the
    error.  [RegionsForService] is the endpoint table of the SDK at the
    default partitions: the regions of a service in a partition, or no entry. *)
Record Env (W : Type) : Type := mkEnv {
  RegionsForService : string -> string -> option (list string);
  Unmarshal : string -> json.object * option error;
  EnvCredentialsGet : W -> option error;
  NewSession : W -> option error;
  ListDetectors :
    W -> guardduty.ListDetectorsOutput.t * option error * W;
  ListFindings :
    guardduty.ListFindingsInput.t -> W ->
    guardduty.ListFindingsOutput.t * option error * W;
  GetFindings :
    guardduty.GetFindingsInput.t -> W ->
    guardduty.GetFindingsOutput.t * option error * W;
  LookupEvents :
    cloudtrail.LookupEventsInput.t -> W ->
    cloudtrail.LookupEventsOutput.t * option error * W
}.

Arguments RegionsForService {W}.
Arguments Unmarshal {W}.
Arguments EnvCredentialsGet {W}.
Arguments NewSession {W}.
Arguments ListDetectors {W}.
Arguments ListFindings {W}.
Arguments GetFindings {W}.
Arguments LookupEvents {W}.

(** One [Println] on standard output: the logger and the recovery handler
    both write there.  [PJSON doc] is the text the library writes for the
    document [doc].  The date
    and time the logger puts before a line in debug mode are left out. *)
Inductive Printed : Type :=
| PError (e : error)
| PString (s : string)
| PJSON (doc : json.value).

(** A request sent to a remote service. *)
Inductive Call : Type :=
| CallListDetectors
| CallListFindings (input : guardduty.ListFindingsInput.t)
| CallGetFindings (input : guardduty.GetFindingsInput.t)
| CallLookupEvents (input : cloudtrail.LookupEventsInput.t).

Record State (W : Type) : Type := mkState {
  world : W;
  stdout : list Printed;
  calls : list Call
}.

Arguments mkState {W}.
Arguments world {W}.
Arguments stdout {W}.
Arguments calls {W}.

(** A computation either goes on with a value or panics. *)
Inductive Res (A : Type) : Type :=
| Ok (a : A)
| Panic (r : string).

Arguments Ok {A}.
Arguments Panic {A}.

Definition M (W A : Type) : Type := State W -> Res A * State W.

Definition ret {W A : Type} (a : A) : M W A := fun st => (Ok a, st).

Definition bind {W A B : Type} (m : M W A) (k : A -> M W B) : M W B :=
  fun st =>
    match m st with
    | (Ok a, st') => k a st'
    | (Panic r, st') => (Panic r, st')
    end.

Declare Scope go_scope.
Delimit Scope go_scope with go.
Notation "x <- m ;; k" := (bind m (fun x => k))
  (at level 61, m at next level, right associativity) : go_scope.
Notation "' p <- m ;; k" := (bind m (fun x => let 'p := x in k))
  (at level 61, p pattern, m at next level, right associativity) : go_scope.
Notation "m ;; k" := (bind m (fun _ => k))
  (at level 61, right associativity) : go_scope.
Open Scope go_scope.

(** Dereferencing a pointer: a nil one panics. *)
Definition deref {W A : Type} (p : option A) : M W A :=
  fun st =>
    match p with
    | Some a => (Ok a, st)
    | None => (Panic nilDereference, st)
    end.

(** [logger.Println] and [fmt.Println]. *)
Definition Println {W : Type} (p : Printed) : M W unit :=
  fun st => (Ok tt, mkState (world st) (stdout st ++ [p]) (calls st)).

(** A range loop over a slice. *)
Fixpoint forEach {W A : Type} (body : A -> M W unit) (l : list A) : M W unit :=
  match l with
  | [] => ret tt
  | x :: rest => body x ;; forEach body rest
  end.

(** [p == nil || *p == ""]. *)
Definition nilOrEmpty (p : option string) : bool :=
  match p with
  | Some s => String.eqb s ""
  | None => true
  end.

(** [p != nil && *p != "" && *p != sentinel]: the test made on each of the
    two credential references of a finding. *)
Definition present (p : option string) (sentinel : string) : bool :=
  match p with
  | Some s => negb (String.eqb s "") && negb (String.eqb s sentinel)
  | None => false
  end.

Definition GeneratedFindingAccessKeyId : string := "GeneratedFindingAccessKeyId".
Definition GeneratedFindingPrincipalId : string := "GeneratedFindingPrincipalId".

(** ** The program *)

Section Program.

Context {W : Type}.
Variable env : Env W.

(** The three remote calls the loop makes, each recorded in [calls]. *)
Definition callListFindings (input : guardduty.ListFindingsInput.t)
  : M W (guardduty.ListFindingsOutput.t * option error) :=
  fun st =>
    let '(out, err, w) := ListFindings env input (world st) in
    (Ok (out, err), mkState w (stdout st) (calls st ++ [CallListFindings input])).

Definition callGetFindings (input : guardduty.GetFindingsInput.t)
  : M W (guardduty.GetFindingsOutput.t * option error) :=
  fun st =>
    let '(out, err, w) := GetFindings env input (world st) in
    (Ok (out, err), mkState w (stdout st) (calls st ++ [CallGetFindings input])).

Definition callLookupEvents (input : cloudtrail.LookupEventsInput.t)
  : M W (cloudtrail.LookupEventsOutput.t * option error) :=
  fun st =>
    let '(out, err, w) := LookupEvents env input (world st) in
    (Ok (out, err), mkState w (stdout st) (calls st ++ [CallLookupEvents input])).

(** The request [LookupEvent] builds: one attribute, at most one result. *)
Definition lookupEventsInput (key value : string) : cloudtrail.LookupEventsInput.t :=
  cloudtrail.LookupEventsInput.mk
    [cloudtrail.LookupAttribute.mk (Some key) (Some value)]
    (Some 1%Z).

(** [LookupEvent]: the event and the error it returns; the event is
    [Events[0]], returned as it is, nil or not.  Both pointer arguments are
    non-nil at every call site, so they are strings here. *)
Definition LookupEvent (key value : string)
  : M W (option cloudtrail.Event.t * option error) :=
  '(events, err) <- callLookupEvents (lookupEventsInput key value) ;;
  match err with
  | Some e =>
      ret (None,
           Some ("LookupEvents failed with Attribute Key '" ++ key ++
                 "' and Attribute Value '" ++ value ++ "': " ++ e))
  | None =>
      let found := cloudtrail.LookupEventsOutput.Events events in
      if negb (Nat.eqb (length found) 1) then
        ret (None, Some ("Expected exactly one event, got " ++ itoa (length found)))
      else ret (hd None found, None)
  end.

(** [GetRoleAndUser]: role ARN, user name and error.  Reading
    [event.CloudTrailEvent] of a nil event panics. *)
Definition GetRoleAndUser (key value : string)
  : M W (option string * option string * option error) :=
  '(event, err) <- LookupEvent key value ;;
  match err, event with
  | Some e, _ =>
      ret (None, None,
           Some ("Unable to find CloudTrail event for " ++ key ++ " " ++ value ++ ": " ++ e))
  | None, None => deref None
  | None, Some event =>
      let dataStr := aws.StringValue (cloudtrail.Event.CloudTrailEvent event) in
      let '(data, err) := Unmarshal env dataStr in
      match err with
      | Some e =>
          ret (None, None,
               Some ("Unable to unmarshal JSON data from CloudTrail event: " ++ e))
      | None =>
          match json.asObject (json.get "userIdentity" data) with
          | None =>
              ret (None, None, Some "Could not retrieve userIdentity from JSON object")
          | Some userIdentity =>
              match json.asString (json.get "arn" userIdentity) with
              | None =>
                  ret (None, None, Some "Could not retrieve arn from JSON object")
              | Some roleArn =>
                  let username :=
                    match json.asString (json.get "userName" userIdentity) with
                    | Some s => s
                    | None => ""
                    end in
                  ret (Some roleArn, Some username, None)
              end
          end
      end
  end.

(** [GetUser]: the user name of the event found under the role ARN, read
    from the event's own [Username] field; on a nil event the read panics. *)
Definition GetUser (roleArn : string) : M W (option string * option error) :=
  let key := "ResourceName" in
  '(event, err) <- LookupEvent key roleArn ;;
  match err, event with
  | Some e, _ =>
      ret (None,
           Some ("Unable to find CloudTrail event for role arn " ++ roleArn ++ ": " ++ e))
  | None, None => deref None
  | None, Some event =>
      let username := aws.StringValue (cloudtrail.Event.Username event) in
      ret (Some username, None)
  end.

(** [PrintJSON]. *)
Definition PrintJSON (fd : FindingDetail) : M W (option error) :=
  let '(fdJSON, err) := Marshal fd in
  match err with
  | Some e => ret (Some ("Unable to marshal FindingDetail to JSON: " ++ e))
  | None => Println (PJSON fdJSON) ;; ret None
  end.

(** [Print]. *)
Definition Print (fd : FindingDetail) : M W unit :=
  Println (PString (textBlock fd)).

(** The five assignments made when the finding has a service part. *)
Definition withService (fd : FindingDetail) (service : guardduty.Service.t)
  : M W FindingDetail :=
  action <- deref (guardduty.Service.Action service) ;;
  call <- deref (guardduty.Action.AwsApiCallAction action) ;;
  remote <- deref (guardduty.AwsApiCallAction.RemoteIpDetails call) ;;
  city <- deref (guardduty.RemoteIpDetails.City remote) ;;
  country <- deref (guardduty.RemoteIpDetails.Country remote) ;;
  ret (mkFindingDetail
         (ID fd) (CreatedAt fd) (AccessKeyID fd) (PrincipalID fd)
         (AssumedRoleARN fd) (Username fd)
         (guardduty.RemoteIpDetails.IpAddressV4 remote)
         (guardduty.AwsApiCallAction.ServiceName call)
         (guardduty.AwsApiCallAction.Api call)
         (guardduty.City.CityName city)
         (guardduty.Country.CountryName country)).

(** [fd.AssumedRoleARN = roleArn] and [fd.Username = username]. *)
Definition resolved (fd : FindingDetail) (roleArn username : option string)
  : FindingDetail :=
  mkFindingDetail
    (ID fd) (CreatedAt fd) (AccessKeyID fd) (PrincipalID fd)
    roleArn username
    (IPAddress fd) (ServiceName fd) (API fd) (City fd) (Country fd).

(** Printing in the desired format. *)
Definition printFinding (v : viper.Viper) (fd : FindingDetail) : M W unit :=
  if String.eqb (viper.GetString v OutputFlag) "json" then
    err <- PrintJSON fd ;;
    match err with
    | Some e => Println (PError ("Unable to marshal finding detail to JSON: " ++ e))
    | None => ret tt
    end
  else Print fd.

(** The rest of the loop body once the first lookup has returned without an
    error: the test on the role ARN, the second lookup when the user name is
    missing, and the output. *)
Definition afterLookup (v : viper.Viper) (fd : FindingDetail)
  (roleArn username : option string) : M W unit :=
  if nilOrEmpty roleArn then ret tt
  else
    if nilOrEmpty username then
      '(username', err) <- GetUser (aws.StringValue roleArn) ;;
      match err with
      | Some e => Println (PError ("Unable to find role username from role arn: " ++ e))
      | None => printFinding v (resolved fd roleArn username')
      end
    else printFinding v (resolved fd roleArn username).

(** The part of the loop body that resolves the identity behind a finding
    detail and prints it: the choice of the credential reference, the first
    lookup, and what follows it. *)
Definition resolveFinding (v : viper.Viper) (fd : FindingDetail) : M W unit :=
  if present (AccessKeyID fd) GeneratedFindingAccessKeyId then
    let key := "AccessKeyId" in
    '(roleArn, username, err) <-
       GetRoleAndUser key (aws.StringValue (AccessKeyID fd)) ;;
    match err with
    | Some e =>
        Println (PError ("Unable to find role arn and username from access key in finding: " ++ e))
    | None => afterLookup v fd roleArn username
    end
  else if present (PrincipalID fd) GeneratedFindingPrincipalId then
    let key := "ResourceName" in
    '(roleArn, username, err) <-
       GetRoleAndUser key (aws.StringValue (PrincipalID fd)) ;;
    match err with
    | Some e =>
        Println (PError ("Unable to find role arn and username from principal ID in finding: " ++ e))
    | None => afterLookup v fd roleArn username
    end
  else ret tt.

(** The body of the loop over the findings of a page; [continue] is the end
    of the body. *)
Definition processFinding (v : viper.Viper) (finding : option guardduty.Finding.t)
  : M W unit :=
  match finding with
  | None => ret tt
  | Some finding =>
      resource <- deref (guardduty.Finding.Resource finding) ;;
      match guardduty.Resource.AccessKeyDetails resource with
      | None =>
          if viper.GetBool v VerboseFlag then
            Println (PString (nl ++ "Skipping Non User Finding ID: " ++
                              aws.StringValue (guardduty.Finding.Id finding)))
          else ret tt
      | Some details =>
          let fd := mkFindingDetail
                      (guardduty.Finding.Id finding)
                      (guardduty.Finding.CreatedAt finding)
                      (guardduty.AccessKeyDetails.AccessKeyId details)
                      (guardduty.AccessKeyDetails.PrincipalId details)
                      None None None None None None None in
          fd <- match guardduty.Finding.Service finding with
                | Some service => withService fd service
                | None => ret fd
                end ;;
          resolveFinding v fd
      end
  end.

(** What one pass through the body of the paging loop decides: leave the
    loop, or go round again with that token in [listFindingsNextToken]. *)
Inductive Ctl : Type :=
| Break
| Again (listFindingsNextToken : option string).

(** The request for one page of findings. *)
Definition listFindingsInput (v : viper.Viper) (detectorID : option string)
  (listFindingsNextToken : option string) : guardduty.ListFindingsInput.t :=
  let archived := if viper.GetBool v ArchivedFlag then "true" else "false" in
  let serviceCondition := guardduty.Condition.mk [archived] in
  let findingCriteria :=
    guardduty.FindingCriteria.mk [("service.archived", serviceCondition)] in
  guardduty.ListFindingsInput.mk detectorID findingCriteria listFindingsNextToken.

(** The body of the paging loop [for { ... }] of one detector. *)
Definition pageBody (v : viper.Viper) (detectorID : option string)
  (listFindingsNextToken : option string) : M W Ctl :=
  '(findingList, err) <-
     callListFindings (listFindingsInput v detectorID listFindingsNextToken) ;;
  match err with
  | Some e =>
      Println (PError ("Unable to list Guard Duty findings: " ++ e)) ;;
      ret (Again listFindingsNextToken)
  | None =>
      let listFindingsNextToken := guardduty.ListFindingsOutput.NextToken findingList in
      if Nat.eqb (length (guardduty.ListFindingsOutput.FindingIds findingList)) 0 then
        ret Break
      else
        '(findings, err) <-
           callGetFindings
             (guardduty.GetFindingsInput.mk detectorID
                (guardduty.ListFindingsOutput.FindingIds findingList)) ;;
        match err with
        | Some e => Println (PError ("Unable to retrieve Guard Duty findings: " ++ e))
        | None => ret tt
        end ;;
        forEach (processFinding v) (guardduty.GetFindingsOutput.Findings findings) ;;
        if nilOrEmpty listFindingsNextToken then ret Break
        else ret (Again listFindingsNextToken)
  end.

(** How far a loop got within a number of iterations. *)
Inductive Loop : Type :=
| Finished (r : Res unit)
| StillLooping.

(** The paging loop, cut after [fuel] passes through its body. *)
Fixpoint pageLoop (fuel : nat) (v : viper.Viper) (detectorID : option string)
  (listFindingsNextToken : option string) (st : State W) : Loop * State W :=
  match fuel with
  | O => (StillLooping, st)
  | S fuel' =>
      match pageBody v detectorID listFindingsNextToken st with
      | (Ok Break, st') => (Finished (Ok tt), st')
      | (Ok (Again token), st') => pageLoop fuel' v detectorID token st'
      | (Panic r, st') => (Finished (Panic r), st')
      end
  end.

(** The loop over the detectors; each paging loop starts with a nil token. *)
Fixpoint detectorLoop (fuel : nat) (v : viper.Viper)
  (detectorIds : list (option string)) (st : State W) : Loop * State W :=
  match detectorIds with
  | [] => (Finished (Ok tt), st)
  | detectorID :: rest =>
      match pageLoop fuel v detectorID None st with
      | (Finished (Ok _), st') => detectorLoop fuel v rest st'
      | other => other
      end
  end.

(** ** Configuration checks *)

Definition errInvalidPartition (partition : string) : error :=
  "invalid partition " ++ partition.

Definition errInvalidRegion (region : string) : error :=
  "invalid region " ++ region.

Definition errInvalidOutput (output : string) : error :=
  "invalid output " ++ output.

Definition checkRegion (v : viper.Viper) : option error :=
  match RegionsForService env
          (viper.GetString v AWSGuardDutyPartitionFlag) GuarddutyServiceID with
  | None => Some ("could not find regions for service " ++ GuarddutyServiceID)
  | Some regions =>
      let p := viper.GetString v AWSGuardDutyPartitionFlag in
      if Nat.eqb (String.length p) 0 then
        Some (AWSGuardDutyPartitionFlag ++ " is invalid: " ++ errInvalidPartition p)
      else
        let r := viper.GetString v AWSGuardDutyRegionFlag in
        if Nat.eqb (String.length r) 0 then
          Some (AWSGuardDutyRegionFlag ++ " is invalid: " ++ errInvalidRegion r)
        else if negb (existsb (String.eqb r) regions) then
          Some (AWSGuardDutyRegionFlag ++ " is invalid: " ++ errInvalidRegion r)
        else None
  end.

Definition checkOutput (v : viper.Viper) : option error :=
  let outputs := [("text", "text"); ("json", "json")] in
  let o := viper.GetString v OutputFlag in
  if negb (existsb (fun kv => String.eqb o (fst kv)) outputs) then
    Some (OutputFlag ++ " is invalid: " ++ errInvalidOutput o)
  else None.

Definition checkConfig (v : viper.Viper) : option error :=
  match checkRegion v with
  | Some err => Some ("Region check failed: " ++ err)
  | None =>
      match checkOutput v with
      | Some err => Some ("Output check failed: " ++ err)
      | None => None
      end
  end.

(** ** The command *)

(** How a run of the command ends within the iterations allowed: it returns
    an error or nil to cobra, or the process exits on the spot
    ([logger.Fatal]), or a paging loop is still going round. *)
Inductive Outcome : Type :=
| Returned (err : option error)
| Exited (code : Z)
| Unfinished.

(** [logger.Fatal]: print, then [os.Exit(1)]. *)
Definition Fatal (e : error) (st : State W) : Outcome * State W :=
  (Exited 1%Z, mkState (world st) (stdout st ++ [PError e]) (calls st)).

(** [findGuardDutyUserFunction] from the binding of the flags on.  A panic in
    the loops is recovered by the deferred function, which prints its value;
    the command then returns nil. *)
Definition findGuardDutyUserFunction (fuel : nat) (v : viper.Viper)
  (st : State W) : Outcome * State W :=
  match checkConfig v with
  | Some checkConfigErr => (Returned (Some checkConfigErr), st)
  | None =>
      match EnvCredentialsGet env (world st) with
      | Some credsGetErr => Fatal ("error creating aws config: " ++ credsGetErr) st
      | None =>
          match NewSession env (world st) with
          | Some errorSession => Fatal ("error creating aws session: " ++ errorSession) st
          | None =>
              let '(detectors, err, w) := ListDetectors env (world st) in
              let st1 := mkState w (stdout st) (calls st ++ [CallListDetectors]) in
              match err with
              | Some e => Fatal ("Unable to list Guard Duty detectors: " ++ e) st1
              | None =>
                  match detectorLoop fuel v
                          (guardduty.ListDetectorsOutput.DetectorIds detectors) st1 with
                  | (Finished (Ok _), st2) => (Returned None, st2)
                  | (Finished (Panic r), st2) =>
                      (Returned None,
                       mkState (world st2) (stdout st2 ++ [PString r]) (calls st2))
                  | (StillLooping, st2) => (Unfinished, st2)
                  end
              end
          end
      end
  end.

(** The exit status of the process: [main] panics on an error returned by
    the command, which ends a Go program with status 2. *)
Definition main (fuel : nat) (v : viper.Viper) (st : State W)
  : option Z * State W :=
  match findGuardDutyUserFunction fuel v st with
  | (Returned None, st') => (Some 0%Z, st')
  | (Returned (Some _), st') => (Some 2%Z, st')
  | (Exited code, st') => (Some code, st')
  | (Unfinished, st') => (None, st')
  end.

End Program.

(** ** Vocabulary of the statements *)

(** What the program prints for a resolved identity in the configured mode. *)
Definition printed (v : viper.Viper) (fd : FindingDetail) : Printed :=
  if String.eqb (viper.GetString v OutputFlag) "json"
  then PJSON (fst (Marshal fd))
  else PString (textBlock fd).

(** The optional members of the encoding, each with the field it encodes. *)
Definition optionalMembers : list (string * (FindingDetail -> option string)) :=
  [ ("accessKeyID", AccessKeyID);
    ("principalID", PrincipalID);
    ("ipAddress", IPAddress);
    ("serviceName", ServiceName);
    ("api", API);
    ("city", City);
    ("country", Country) ].

(** The members that are always encoded, each with the field it encodes. *)
Definition requiredMembers : list (string * (FindingDetail -> option string)) :=
  [ ("id", ID);
    ("createdAt", CreatedAt);
    ("assumeRoleARN", AssumedRoleARN);
    ("username", Username) ].

(** A finding detail with every nil optional field replaced by a pointer to
    the empty string. *)
Definition blank (fd : FindingDetail) : FindingDetail :=
  let orEmpty (p : option string) := Some (aws.StringValue p) in
  mkFindingDetail
    (ID fd) (CreatedAt fd)
    (orEmpty (AccessKeyID fd)) (orEmpty (PrincipalID fd))
    (AssumedRoleARN fd) (Username fd)
    (orEmpty (IPAddress fd)) (orEmpty (ServiceName fd)) (orEmpty (API fd))
    (orEmpty (City fd)) (orEmpty (Country fd)).

(** What a member without [omitempty] holds for a field. *)
Definition encoded (p : option string) : json.value :=
  match p with
  | Some s => json.JString s
  | None => json.JNull
  end.

(** The state after a lookup request was answered with world [w]. *)
Definition lookedUp {W : Type} (st : State W)
  (input : cloudtrail.LookupEventsInput.t) (w : W) : State W :=
  mkState w (stdout st) (calls st ++ [CallLookupEvents input]).

(** The state after one more line was printed. *)
Definition logged {W : Type} (st : State W) (p : Printed) : State W :=
  mkState (world st) (stdout st ++ [p]) (calls st).

(** The answer of [LookupEvent] as a function of the service's answer. *)
Definition lookupAnswer (key value : string)
  (out : cloudtrail.LookupEventsOutput.t) (err : option error)
  : option cloudtrail.Event.t * option error :=
  match err with
  | Some e =>
      (None, Some ("LookupEvents failed with Attribute Key '" ++ key ++
                   "' and Attribute Value '" ++ value ++ "': " ++ e))
  | None =>
      match cloudtrail.LookupEventsOutput.Events out with
      | [event] => (event, None)
      | l => (None, Some ("Expected exactly one event, got " ++ itoa (length l)))
      end
  end.

(** A service answer respects the request's cap on the number of events. *)
Definition honoursMaxResults (input : cloudtrail.LookupEventsInput.t)
  (out : cloudtrail.LookupEventsOutput.t) : Prop :=
  forall m, cloudtrail.LookupEventsInput.MaxResults input = Some m ->
            (Z.of_nat (length (cloudtrail.LookupEventsOutput.Events out)) <= m)%Z.

(** The service part of a finding is absent or complete down to the city
    and the country, so that reading it does not panic. *)
Definition serviceReadable (finding : guardduty.Finding.t) : bool :=
  match guardduty.Finding.Service finding with
  | None => true
  | Some service =>
      match guardduty.Service.Action service with
      | None => false
      | Some action =>
          match guardduty.Action.AwsApiCallAction action with
          | None => false
          | Some call =>
              match guardduty.AwsApiCallAction.RemoteIpDetails call with
              | None => false
              | Some remote =>
                  match guardduty.RemoteIpDetails.City remote,
                        guardduty.RemoteIpDetails.Country remote with
                  | Some _, Some _ => true
                  | _, _ => false
                  end
              end
          end
      end
  end.

(** The credential reference the resolver searches the audit log for: the
    attribute key and its value. *)
Definition credential (fd : FindingDetail) : option (string * string) :=
  if present (AccessKeyID fd) GeneratedFindingAccessKeyId then
    Some ("AccessKeyId", aws.StringValue (AccessKeyID fd))
  else if present (PrincipalID fd) GeneratedFindingPrincipalId then
    Some ("ResourceName", aws.StringValue (PrincipalID fd))
  else None.

(** The start of the message logged when the first lookup fails. *)
Definition unableFrom (key : string) : string :=
  if String.eqb key "AccessKeyId"
  then "Unable to find role arn and username from access key in finding: "
  else "Unable to find role arn and username from principal ID in finding: ".

(** The message [GetRoleAndUser] wraps a failed lookup in. *)
Definition noEventFor (key value : string) (e : error) : error :=
  "Unable to find CloudTrail event for " ++ key ++ " " ++ value ++ ": " ++ e.

(** The message logged when the lookup by role fails. *)
Definition noUserFor (roleArn : string) (e : error) : error :=
  "Unable to find role username from role arn: " ++
  "Unable to find CloudTrail event for role arn " ++ roleArn ++ ": " ++ e.

(** The message of a lookup that did not find exactly one event. *)
Definition notExactlyOne (n : nat) : error :=
  "Expected exactly one event, got " ++ itoa n.

(** A credential reference is usable: it is there, it is not empty and it is
    not the placeholder of a sample finding. *)
Definition usable (p : option string) (sentinel : string) : Prop :=
  exists s, p = Some s /\ s <> "" /\ s <> sentinel.

(** The environment with another decoder in place of [Unmarshal]. *)
Definition withDecoder {W : Type} (env : Env W)
  (decode : string -> json.object * option error) : Env W :=
  mkEnv W (RegionsForService env) decode (EnvCredentialsGet env) (NewSession env)
    (ListDetectors env) (ListFindings env) (GetFindings env) (LookupEvents env).

(** The names of all the members, in the order of the fields. *)
Definition allMembers : list string :=
  [ "id"; "createdAt"; "accessKeyID"; "principalID"; "assumeRoleARN";
    "username"; "ipAddress"; "serviceName"; "api"; "city"; "country" ].

(** The finding detail as the loop body first builds it, before the
    service part is read. *)
Definition detailOf (finding : guardduty.Finding.t)
  (details : guardduty.AccessKeyDetails.t) : FindingDetail :=
  mkFindingDetail
    (guardduty.Finding.Id finding)
    (guardduty.Finding.CreatedAt finding)
    (guardduty.AccessKeyDetails.AccessKeyId details)
    (guardduty.AccessKeyDetails.PrincipalId details)
    None None None None None None None.

(** The state after a page of findings was requested and answered. *)
Definition listed {W : Type} (st : State W)
  (input : guardduty.ListFindingsInput.t) (w : W) : State W :=
  mkState w (stdout st) (calls st ++ [CallListFindings input]).

(** The state after the findings of a page were requested and answered. *)
Definition fetched {W : Type} (st : State W)
  (input : guardduty.GetFindingsInput.t) (w : W) : State W :=
  mkState w (stdout st) (calls st ++ [CallGetFindings input]).

(** The end of the body of the paging loop: the test on the next token. *)
Definition nextPage {W : Type} (listFindingsNextToken : option string) : M W Ctl :=
  if nilOrEmpty listFindingsNextToken then ret Break
  else ret (Again listFindingsNextToken).

(** A printed line shows the role ARN and the user name of an identity:
    in json mode it is an encoded object with these two strings as its
    assumeRoleARN and username members, otherwise it is a text in which the
    role row and the user row follow each other with these two values. *)
Definition showsIdentity (v : viper.Viper) (line : Printed) (arn user : string)
  : Prop :=
  if String.eqb (viper.GetString v OutputFlag) "json" then
    exists doc,
      line = PJSON doc /\
      json.field "assumeRoleARN" doc = Some (json.JString arn) /\
      json.field "username" doc = Some (json.JString user)
  else
    exists before after,
      line = PString (before ++
                      "Assumed Role ARN:   " ++ arn ++ nl ++
                      "Username:           " ++ user ++ nl ++ after).

(** ** A scripted environment, for concrete runs *)

Module Scenario.

Definition dq : string := String (ascii_of_nat 34) EmptyString.

Definition roleX : string := "arn:aws:iam::111:role/X".

(** The text of a payload whose identity has an ARN and no user name. *)
Definition payload : string :=
  "{" ++ dq ++ "userIdentity" ++ dq ++ ":{" ++
  dq ++ "arn" ++ dq ++ ":" ++ dq ++ roleX ++ dq ++ "}}".

Definition decoded : json.object :=
  [("userIdentity", json.JObject [("arn", json.JString roleX)])].

Definition decode (s : string) : json.object * option error :=
  if String.eqb s payload then (decoded, None)
  else ([], Some "unexpected end of JSON input").

Definition assumeRoleEvent : cloudtrail.Event.t :=
  cloudtrail.Event.mk (Some payload) None.

Definition aliceEvent : cloudtrail.Event.t :=
  cloudtrail.Event.mk None (Some "alice").

Definition finding : guardduty.Finding.t :=
  guardduty.Finding.mk (Some "f-1") (Some "2020-06-01T00:00:00Z")
    (Some (guardduty.Resource.mk
             (Some (guardduty.AccessKeyDetails.mk (Some "AKIA123") None))))
    None.

Definition regions (partition service : string) : option (list string) :=
  if String.eqb partition "aws" && String.eqb service "guardduty"
  then Some ["us-east-1"; "us-west-2"]
  else None.

(** The attribute of a lookup request, as a pair. *)
Definition attribute (input : cloudtrail.LookupEventsInput.t) : string * string :=
  match cloudtrail.LookupEventsInput.LookupAttributes input with
  | a :: _ =>
      (aws.StringValue (cloudtrail.LookupAttribute.AttributeKey a),
       aws.StringValue (cloudtrail.LookupAttribute.AttributeValue a))
  | [] => ("", "")
  end.

(** The audit log of the scenario: one event under the access key AKIA123,
    the same event under the principal id AROA123, and [byRole] under the
    role. *)
Definition trail (byRole : list (option cloudtrail.Event.t))
  (input : cloudtrail.LookupEventsInput.t) (w : unit)
  : cloudtrail.LookupEventsOutput.t * option error * unit :=
  let '(key, value) := attribute input in
  if String.eqb key "AccessKeyId" && String.eqb value "AKIA123" then
    (cloudtrail.LookupEventsOutput.mk [Some assumeRoleEvent] None, None, tt)
  else if String.eqb key "ResourceName" && String.eqb value "AROA123" then
    (cloudtrail.LookupEventsOutput.mk [Some assumeRoleEvent] None, None, tt)
  else if String.eqb key "ResourceName" && String.eqb value roleX then
    (cloudtrail.LookupEventsOutput.mk byRole None, None, tt)
  else (cloudtrail.LookupEventsOutput.mk [] None, None, tt).

(** One detector with one page of one finding; [listErr] and [getErr] make
    the two GuardDuty requests fail. *)
Definition scripted (byRole : list (option cloudtrail.Event.t))
  (listErr getErr : option error) : Env unit :=
  mkEnv unit regions decode
    (fun _ => None)
    (fun _ => None)
    (fun _ => (guardduty.ListDetectorsOutput.mk [Some "d-1"], None, tt))
    (fun _ _ =>
       match listErr with
       | Some e => (guardduty.ListFindingsOutput.mk [] None, Some e, tt)
       | None => (guardduty.ListFindingsOutput.mk [Some "f-1"] None, None, tt)
       end)
    (fun _ _ =>
       match getErr with
       | Some e => (guardduty.GetFindingsOutput.mk [], Some e, tt)
       | None => (guardduty.GetFindingsOutput.mk [Some finding], None, tt)
       end)
    (trail byRole).

(** The environment of the end-to-end scenario. *)
Definition env : Env unit := scripted [Some aliceEvent] None None.

(** The flags: partition, region and output as given, nothing archived, no
    debug logging. *)
Definition flags (partition region output : string) : viper.Viper :=
  viper.mk
    (fun name =>
       if String.eqb name AWSGuardDutyPartitionFlag then partition
       else if String.eqb name AWSGuardDutyRegionFlag then region
       else if String.eqb name OutputFlag then output
       else "")
    (fun _ => false).

Definition v : viper.Viper := flags "aws" "us-west-2" "json".

Definition start : State unit := mkState tt [] [].

(** The same audit log when two events are found under the role. *)
Definition twoEvents : Env unit := scripted [Some aliceEvent; Some aliceEvent] None None.

(** The same services when every request for a page of findings fails. *)
Definition failingList : Env unit := scripted [Some aliceEvent] (Some "RequestError") None.

(** The finding detail of the scenario's finding. *)
Definition detail : FindingDetail :=
  detailOf finding (guardduty.AccessKeyDetails.mk (Some "AKIA123") None).

(** A finding detail with a principal id and no access key id. *)
Definition principalDetail : FindingDetail :=
  detailOf finding (guardduty.AccessKeyDetails.mk None (Some "AROA123")).

(** The finding detail of a sample finding: the placeholder as access key
    id, no principal id. *)
Definition sampleDetail : FindingDetail :=
  detailOf finding
    (guardduty.AccessKeyDetails.mk (Some GeneratedFindingAccessKeyId) None).

(** The request for the first page of the detector. *)
Definition firstPage : guardduty.ListFindingsInput.t :=
  listFindingsInput v (Some "d-1") None.

End Scenario.


(** ** More scripted cases *)

Module Cases.

(** A decoder that finds an identity whose ARN is the empty string. *)
Definition emptyArn : Env unit :=
  withDecoder Scenario.env
    (fun _ => ([("userIdentity", json.JObject [("arn", json.JString "")])], None)).

(** A finding detail with an access key id unknown to the audit log and a
    principal id known to it. *)
Definition bothDetail : FindingDetail :=
  detailOf Scenario.finding
    (guardduty.AccessKeyDetails.mk (Some "AKIA999") (Some "AROA123")).



(** One detector with two pages: the first, asked for with a nil token, has
    the finding of the scenario and the token next; the second, asked for
    with any other token, is empty and comes with the token again. *)
Definition paged : Env unit :=
  mkEnv unit Scenario.regions Scenario.decode
    (fun _ => None)
    (fun _ => None)
    (fun _ => (guardduty.ListDetectorsOutput.mk [Some "d-1"], None, tt))
    (fun input _ =>
       match guardduty.ListFindingsInput.NextToken input with
       | None => (guardduty.ListFindingsOutput.mk [Some "f-1"] (Some "next"), None, tt)
       | Some _ => (guardduty.ListFindingsOutput.mk [] (Some "again"), None, tt)
       end)
    (fun _ _ => (guardduty.GetFindingsOutput.mk [Some Scenario.finding], None, tt))
    (Scenario.trail [Some Scenario.aliceEvent]).

(** How many pages can still follow a token of [paged]. *)
Definition pagesAfter (token : option string) : nat :=
  match token with
  | None => 1
  | Some _ => 0
  end.

(** The services of the scenario with a second detector after the first. *)
Definition twoDetectors (listErr : option error) : Env unit :=
  mkEnv unit Scenario.regions Scenario.decode
    (fun _ => None)
    (fun _ => None)
    (fun _ => (guardduty.ListDetectorsOutput.mk [Some "d-1"; Some "d-2"], None, tt))
    (ListFindings (Scenario.scripted [Some Scenario.aliceEvent] listErr None))
    (GetFindings (Scenario.scripted [Some Scenario.aliceEvent] listErr None))
    (Scenario.trail [Some Scenario.aliceEvent]).

(** A decoder that finds an identity with the role of the scenario and the
    user name bob. *)
Definition named : Env unit :=
  withDecoder Scenario.env
    (fun _ =>
       ([("userIdentity",
          json.JObject [("arn", json.JString Scenario.roleX);
                        ("userName", json.JString "bob")])],
        None)).

(** A finding detail whose access key id points to the empty string, with
    a principal id known to the audit log. *)
Definition emptyKey : FindingDetail :=
  detailOf Scenario.finding
    (guardduty.AccessKeyDetails.mk (Some "") (Some "AROA123")).


End Cases.


(** ** Vocabulary of the invariants *)

(** What a request of the loops looks like under the flags [v]: a page
    request carries the one criterion service.archived with the value of the
    archived flag; the findings of a page are fetched for a list of
    identifiers that is not empty; a lookup has one attribute, under
    AccessKeyId or ResourceName, with a value that is not empty (nor the
    placeholder under AccessKeyId), and asks for at most one event. *)
Definition requestOK (v : viper.Viper) (c : Call) : Prop :=
  match c with
  | CallListDetectors => False
  | CallListFindings input =>
      guardduty.ListFindingsInput.FindingCriteria input =
        guardduty.FindingCriteria.mk
          [("service.archived",
            guardduty.Condition.mk
              [if viper.GetBool v ArchivedFlag then "true" else "false"])]
  | CallGetFindings input => guardduty.GetFindingsInput.FindingIds input <> []
  | CallLookupEvents input =>
      exists key value,
        cloudtrail.LookupEventsInput.LookupAttributes input =
          [cloudtrail.LookupAttribute.mk (Some key) (Some value)] /\
        cloudtrail.LookupEventsInput.MaxResults input = Some 1%Z /\
        value <> "" /\
        (key = "AccessKeyId" /\ value <> GeneratedFindingAccessKeyId \/
         key = "ResourceName")
  end.

(** From [st] to [st'] requests were only added, each satisfying [P]. *)
Definition sends {W : Type} (P : Call -> Prop) (st st' : State W) : Prop :=
  exists added, calls st' = (calls st ++ added)%list /\ Forall P added.

(** A computation only adds requests satisfying [P]. *)
Definition keeps {W A : Type} (P : Call -> Prop) (m : M W A) : Prop :=
  forall st, sends P st (snd (m st)).


(** The strings of a list are pairwise different. *)
Fixpoint distinct (l : list string) : bool :=
  match l with
  | [] => true
  | x :: rest => negb (existsb (String.eqb x) rest) && distinct rest
  end.


(** What a line of a run looks like under the flags [v]: an encoded object
    is printed in json mode only, and it has a non-empty string as
    assumeRoleARN member and a string as username member. *)
Definition lineOK (v : viper.Viper) (p : Printed) : Prop :=
  match p with
  | PError _ => True
  | PString _ => True
  | PJSON doc =>
      viper.GetString v OutputFlag = "json" /\
      exists arn user,
        arn <> "" /\
        json.field "assumeRoleARN" doc = Some (json.JString arn) /\
        json.field "username" doc = Some (json.JString user)
  end.

(** From [st] to [st'] lines were only added, each satisfying [Q]. *)
Definition utters {W : Type} (Q : Printed -> Prop) (st st' : State W) : Prop :=
  exists added, stdout st' = (stdout st ++ added)%list /\ Forall Q added.

(** A computation only adds lines satisfying [Q]. *)
Definition speaks {W A : Type} (Q : Printed -> Prop) (m : M W A) : Prop :=
  forall st, utters Q st (snd (m st)).


(** The number of line feeds of a string. *)
Fixpoint lineFeeds (s : string) : nat :=
  match s with
  | EmptyString => 0
  | String c rest =>
      (if Ascii.eqb c (ascii_of_nat 10) then 1 else 0) + lineFeeds rest
  end.


(** Whether the member [name] is in the encoding of [fd]: an optional member
    is unless its field is nil, any other is. *)
Definition shown (fd : FindingDetail) (name : string) : bool :=
  match find (fun m => String.eqb (fst m) name) optionalMembers with
  | Some (_, field) =>
      match field fd with
      | Some _ => true
      | None => false
      end
  | None => true
  end.

(** The detector a request is made for, when it is made for one. *)
Definition detectorOf (c : Call) : option (option string) :=
  match c with
  | CallListFindings input => Some (guardduty.ListFindingsInput.DetectorId input)
  | CallGetFindings input => Some (guardduty.GetFindingsInput.DetectorId input)
  | CallListDetectors => None
  | CallLookupEvents _ => None
  end.

(** A page request or a fetch of findings made for the detector
    [detectorID], or a lookup in the audit log. *)
Definition madeFor (detectorID : option string) (c : Call) : Prop :=
  match c with
  | CallListDetectors => False
  | _ =>
      match detectorOf c with
      | Some d => d = detectorID
      | None => True
      end
  end.

(** The requests [added] serve the detectors in turn: nothing, or the
    request for the first page of the first detector, then requests made
    for that detector, then the same for the detectors after it. *)
Fixpoint inTurn (v : viper.Viper) (detectorIds : list (option string))
  (added : list Call) : Prop :=
  match detectorIds with
  | [] => added = []
  | detectorID :: rest =>
      added = [] \/
      exists tail later,
        added = (CallListFindings (listFindingsInput v detectorID None)
                   :: tail ++ later)%list /\
        Forall (madeFor detectorID) tail /\
        inTurn v rest later
  end.

(** ** Theorems *)

Section Theory.

Context {W : Type}.
Variable env : Env W.

Ltac run :=
  cbv beta iota delta
    [bind ret Println deref callLookupEvents callListFindings callGetFindings
     lookedUp logged];
  cbn [fst snd world stdout calls].

(** *** The three functions around the audit log *)

Lemma LookupEvent_run (key value : string) (st : State W) out err w :
  LookupEvents env (lookupEventsInput key value) (world st) = (out, err, w) ->
  LookupEvent env key value st =
    (Ok (lookupAnswer key value out err),
     lookedUp st (lookupEventsInput key value) w).
Proof.
  intros H. unfold LookupEvent. run. rewrite H. unfold lookupAnswer.
  destruct err as [e|]; [reflexivity|].
  destruct (cloudtrail.LookupEventsOutput.Events out) as [|a [|b l]]; reflexivity.
Qed.

Lemma lookupAnswer_not_one key value out :
  length (cloudtrail.LookupEventsOutput.Events out) <> 1 ->
  lookupAnswer key value out None =
    (None,
     Some ("Expected exactly one event, got " ++
           itoa (length (cloudtrail.LookupEventsOutput.Events out)))).
Proof.
  intros H. unfold lookupAnswer.
  destruct (cloudtrail.LookupEventsOutput.Events out) as [|a [|b l]];
    [reflexivity | exfalso; apply H; reflexivity | reflexivity].
Qed.

Lemma lookupAnswer_shape key value out err :
  (exists e, lookupAnswer key value out err = (None, Some e)) \/
  (exists event,
      err = None /\
      cloudtrail.LookupEventsOutput.Events out = [event] /\
      lookupAnswer key value out err = (event, None)).
Proof.
  unfold lookupAnswer. destruct err as [e|]; [left; eauto|].
  destruct (cloudtrail.LookupEventsOutput.Events out) as [|a [|b l]];
    [left; eauto | right; eauto | left; eauto].
Qed.

Lemma GetRoleAndUser_failed key value (st : State W) out err w e :
  LookupEvents env (lookupEventsInput key value) (world st) = (out, err, w) ->
  lookupAnswer key value out err = (None, Some e) ->
  GetRoleAndUser env key value st =
    (Ok (None, None,
         Some ("Unable to find CloudTrail event for " ++ key ++ " " ++ value ++ ": " ++ e)),
     lookedUp st (lookupEventsInput key value) w).
Proof.
  intros H A. unfold GetRoleAndUser, bind.
  rewrite (LookupEvent_run _ _ _ _ _ _ H), A. reflexivity.
Qed.

Lemma GetUser_failed roleArn (st : State W) out err w e :
  LookupEvents env (lookupEventsInput "ResourceName" roleArn) (world st) = (out, err, w) ->
  lookupAnswer "ResourceName" roleArn out err = (None, Some e) ->
  GetUser env roleArn st =
    (Ok (None,
         Some ("Unable to find CloudTrail event for role arn " ++ roleArn ++ ": " ++ e)),
     lookedUp st (lookupEventsInput "ResourceName" roleArn) w).
Proof.
  intros H A. unfold GetUser, bind.
  rewrite (LookupEvent_run _ _ _ _ _ _ H), A. reflexivity.
Qed.

Lemma GetUser_found roleArn (st : State W) out w event :
  LookupEvents env (lookupEventsInput "ResourceName" roleArn) (world st) = (out, None, w) ->
  cloudtrail.LookupEventsOutput.Events out = [Some event] ->
  GetUser env roleArn st =
    (Ok (Some (aws.StringValue (cloudtrail.Event.Username event)), None),
     lookedUp st (lookupEventsInput "ResourceName" roleArn) w).
Proof.
  intros H E. unfold GetUser, bind.
  rewrite (LookupEvent_run _ _ _ _ _ _ H). unfold lookupAnswer. rewrite E.
  reflexivity.
Qed.

(** A nil event makes both functions panic after their request. *)
Lemma GetRoleAndUser_nil key value (st : State W) out w :
  LookupEvents env (lookupEventsInput key value) (world st) = (out, None, w) ->
  cloudtrail.LookupEventsOutput.Events out = [None] ->
  GetRoleAndUser env key value st =
    (Panic nilDereference, lookedUp st (lookupEventsInput key value) w).
Proof.
  intros H E. unfold GetRoleAndUser, bind.
  rewrite (LookupEvent_run _ _ _ _ _ _ H). unfold lookupAnswer. rewrite E.
  reflexivity.
Qed.

Lemma GetUser_nil roleArn (st : State W) out w :
  LookupEvents env (lookupEventsInput "ResourceName" roleArn) (world st) = (out, None, w) ->
  cloudtrail.LookupEventsOutput.Events out = [None] ->
  GetUser env roleArn st =
    (Panic nilDereference, lookedUp st (lookupEventsInput "ResourceName" roleArn) w).
Proof.
  intros H E. unfold GetUser, bind.
  rewrite (LookupEvent_run _ _ _ _ _ _ H). unfold lookupAnswer. rewrite E.
  reflexivity.
Qed.

(** What [GetRoleAndUser] returns when the lookup finds one event: an error,
    or the ARN and the user name read from the decoded payload. *)
Lemma GetRoleAndUser_found key value (st : State W) out w event :
  LookupEvents env (lookupEventsInput key value) (world st) = (out, None, w) ->
  cloudtrail.LookupEventsOutput.Events out = [Some event] ->
  exists r,
    GetRoleAndUser env key value st =
      (Ok r, lookedUp st (lookupEventsInput key value) w) /\
    ((exists e, r = (None, None, Some e)) \/
     (exists data userIdentity roleArn,
         Unmarshal env (aws.StringValue (cloudtrail.Event.CloudTrailEvent event))
           = (data, None) /\
         json.asObject (json.get "userIdentity" data) = Some userIdentity /\
         json.asString (json.get "arn" userIdentity) = Some roleArn /\
         r = (Some roleArn,
              Some (aws.StringValue
                      (json.asString (json.get "userName" userIdentity))),
              None))).
Proof.
  intros H E. unfold GetRoleAndUser, bind.
  rewrite (LookupEvent_run _ _ _ _ _ _ H). unfold lookupAnswer. rewrite E.
  destruct (Unmarshal env _) as [data [e|]] eqn:U;
    [eexists; split; [reflexivity | left; eauto]|].
  destruct (json.asObject _) as [userIdentity|] eqn:I;
    [|eexists; split; [reflexivity | left; eauto]].
  destruct (json.asString (json.get "arn" userIdentity)) as [roleArn|] eqn:A;
    [|eexists; split; [reflexivity | left; eauto]].
  eexists; split; [reflexivity|]. right.
  exists data, userIdentity, roleArn. repeat split; assumption.
Qed.

(** The same, from the payload to the answer. *)
Lemma GetRoleAndUser_resolved key value (st : State W) out w event
      data userIdentity roleArn :
  LookupEvents env (lookupEventsInput key value) (world st) = (out, None, w) ->
  cloudtrail.LookupEventsOutput.Events out = [Some event] ->
  Unmarshal env (aws.StringValue (cloudtrail.Event.CloudTrailEvent event))
    = (data, None) ->
  json.asObject (json.get "userIdentity" data) = Some userIdentity ->
  json.asString (json.get "arn" userIdentity) = Some roleArn ->
  GetRoleAndUser env key value st =
    (Ok (Some roleArn,
         Some (aws.StringValue (json.asString (json.get "userName" userIdentity))),
         None),
     lookedUp st (lookupEventsInput key value) w).
Proof.
  intros H E U I A. unfold GetRoleAndUser, bind.
  rewrite (LookupEvent_run _ _ _ _ _ _ H). unfold lookupAnswer. rewrite E.
  rewrite U, I, A.
  destruct (json.asString (json.get "userName" userIdentity)); reflexivity.
Qed.

(** *** Output *)

Lemma printFinding_run (v : viper.Viper) (fd : FindingDetail) (st : State W) :
  printFinding v fd st = (Ok tt, logged st (printed v fd)).
Proof.
  unfold printFinding, printed, PrintJSON, Print.
  destruct (String.eqb (viper.GetString v OutputFlag) "json"); reflexivity.
Qed.

Lemma get_app k (a b : json.object) :
  json.get k (a ++ b)%list =
    match json.get k a with
    | Some x => Some x
    | None => json.get k b
    end.
Proof.
  induction a as [|[k' x] a IH]; [reflexivity|].
  simpl. destruct (String.eqb k k'); [reflexivity | exact IH].
Qed.

Lemma get_always k name p :
  json.get k (always name p) = if String.eqb k name then Some (encoded p) else None.
Proof. destruct p; simpl; destruct (String.eqb k name); reflexivity. Qed.

Lemma get_omitempty k name p :
  json.get k (omitempty name p) =
    if String.eqb k name then option_map json.JString p else None.
Proof. destruct p; simpl; destruct (String.eqb k name); reflexivity. Qed.

Lemma get_keys k (m : json.object) :
  In k (map fst m) <-> json.get k m <> None.
Proof.
  induction m as [|[k' x] m IH]; simpl.
  - split; [intros [] | intros H; apply H; reflexivity].
  - destruct (String.eqb_spec k k') as [->|N].
    + split; [discriminate | intros _; left; reflexivity].
    + rewrite <- IH. split; [intros [E|H]; [congruence | exact H] | intros H; right; exact H].
Qed.

Ltac members :=
  unfold json.field, Marshal; cbn [fst];
  repeat (rewrite get_app; rewrite ?get_always, ?get_omitempty; cbn [String.eqb Ascii.eqb Bool.eqb]);
  rewrite ?get_always, ?get_omitempty; cbn [String.eqb Ascii.eqb Bool.eqb].

Lemma optional_member (fd : FindingDetail) name field :
  In (name, field) optionalMembers ->
  json.field name (fst (Marshal fd)) = option_map json.JString (field fd).
Proof.
  unfold optionalMembers. simpl.
  intros H.
  repeat (destruct H as [H|H]; [inversion H; subst; clear H; members;
                                destruct (_ fd); reflexivity |]).
  destruct H.
Qed.

Lemma required_member (fd : FindingDetail) name field :
  In (name, field) requiredMembers ->
  json.field name (fst (Marshal fd)) = Some (encoded (field fd)).
Proof.
  unfold requiredMembers. simpl.
  intros H.
  repeat (destruct H as [H|H]; [inversion H; subst; clear H; members; reflexivity |]).
  destruct H.
Qed.

(** *** The resolver, case by case *)

Lemma afterLookup_skip v fd roleArn username (st : State W) :
  nilOrEmpty roleArn = true ->
  afterLookup env v fd roleArn username st = (Ok tt, st).
Proof. intros H. unfold afterLookup. rewrite H. reflexivity. Qed.

Lemma afterLookup_direct v fd roleArn username (st : State W) :
  nilOrEmpty roleArn = false ->
  nilOrEmpty username = false ->
  afterLookup env v fd roleArn username st =
    (Ok tt, logged st (printed v (resolved fd roleArn username))).
Proof.
  intros H1 H2. unfold afterLookup. rewrite H1, H2. apply printFinding_run.
Qed.

Lemma afterLookup_second_failed v fd roleArn username (st : State W) out err w e :
  nilOrEmpty roleArn = false ->
  nilOrEmpty username = true ->
  LookupEvents env (lookupEventsInput "ResourceName" (aws.StringValue roleArn)) (world st)
    = (out, err, w) ->
  lookupAnswer "ResourceName" (aws.StringValue roleArn) out err = (None, Some e) ->
  afterLookup env v fd roleArn username st =
    (Ok tt,
     logged (lookedUp st (lookupEventsInput "ResourceName" (aws.StringValue roleArn)) w)
       (PError (noUserFor (aws.StringValue roleArn) e))).
Proof.
  intros H1 H2 L A. unfold afterLookup. rewrite H1, H2. unfold bind.
  rewrite (GetUser_failed _ _ _ _ _ _ L A). reflexivity.
Qed.

Lemma afterLookup_second_found v fd roleArn username (st : State W) out w event :
  nilOrEmpty roleArn = false ->
  nilOrEmpty username = true ->
  LookupEvents env (lookupEventsInput "ResourceName" (aws.StringValue roleArn)) (world st)
    = (out, None, w) ->
  cloudtrail.LookupEventsOutput.Events out = [Some event] ->
  afterLookup env v fd roleArn username st =
    (Ok tt,
     logged (lookedUp st (lookupEventsInput "ResourceName" (aws.StringValue roleArn)) w)
       (printed v (resolved fd roleArn
                     (Some (aws.StringValue (cloudtrail.Event.Username event)))))).
Proof.
  intros H1 H2 L E. unfold afterLookup. rewrite H1, H2. unfold bind.
  rewrite (GetUser_found _ _ _ _ _ L E). apply printFinding_run.
Qed.

(** With a credential reference, the resolver is the first lookup followed
    by the log of its error or by the rest of the body. *)
Lemma resolveFinding_credential v fd key value (st : State W) :
  credential fd = Some (key, value) ->
  resolveFinding env v fd st =
    match GetRoleAndUser env key value st with
    | (Ok (roleArn, username, Some e), st') =>
        (Ok tt, logged st' (PError (unableFrom key ++ e)))
    | (Ok (roleArn, username, None), st') =>
        afterLookup env v fd roleArn username st'
    | (Panic r, st') => (Panic r, st')
    end.
Proof.
  unfold credential, resolveFinding.
  destruct (present (AccessKeyID fd) GeneratedFindingAccessKeyId).
  - intros H; inversion H; subst; clear H. unfold bind.
    destruct (GetRoleAndUser _ _ _ st) as [[[[roleArn username] [e|]]|r] st']; reflexivity.
  - destruct (present (PrincipalID fd) GeneratedFindingPrincipalId); [|discriminate].
    intros H; inversion H; subst; clear H. unfold bind.
    destruct (GetRoleAndUser _ _ _ st) as [[[[roleArn username] [e|]]|r] st']; reflexivity.
Qed.

Lemma resolveFinding_no_credential v fd (st : State W) :
  credential fd = None ->
  resolveFinding env v fd st = (Ok tt, st).
Proof.
  unfold credential, resolveFinding.
  destruct (present (AccessKeyID fd) GeneratedFindingAccessKeyId); [discriminate|].
  destruct (present (PrincipalID fd) GeneratedFindingPrincipalId); [discriminate|].
  reflexivity.
Qed.

Lemma resolveFinding_first_failed v fd key value (st : State W) out err w e :
  credential fd = Some (key, value) ->
  LookupEvents env (lookupEventsInput key value) (world st) = (out, err, w) ->
  lookupAnswer key value out err = (None, Some e) ->
  resolveFinding env v fd st =
    (Ok tt,
     logged (lookedUp st (lookupEventsInput key value) w)
       (PError (unableFrom key ++ noEventFor key value e))).
Proof.
  intros C L A. rewrite (resolveFinding_credential _ _ _ _ _ C).
  rewrite (GetRoleAndUser_failed _ _ _ _ _ _ _ L A). reflexivity.
Qed.

Lemma resolveFinding_first_found v fd key value (st : State W) out w event
      data userIdentity roleArn :
  credential fd = Some (key, value) ->
  LookupEvents env (lookupEventsInput key value) (world st) = (out, None, w) ->
  cloudtrail.LookupEventsOutput.Events out = [Some event] ->
  Unmarshal env (aws.StringValue (cloudtrail.Event.CloudTrailEvent event))
    = (data, None) ->
  json.asObject (json.get "userIdentity" data) = Some userIdentity ->
  json.asString (json.get "arn" userIdentity) = Some roleArn ->
  resolveFinding env v fd st =
    afterLookup env v fd (Some roleArn)
      (Some (aws.StringValue (json.asString (json.get "userName" userIdentity))))
      (lookedUp st (lookupEventsInput key value) w).
Proof.
  intros C L E U I A. rewrite (resolveFinding_credential _ _ _ _ _ C).
  rewrite (GetRoleAndUser_resolved _ _ _ _ _ _ _ _ _ L E U I A). reflexivity.
Qed.

Lemma nilOrEmpty_false p :
  nilOrEmpty p = false -> exists s, p = Some s /\ s <> "".
Proof.
  destruct p as [s|]; simpl; [|discriminate].
  intros H. exists s. split; [reflexivity|].
  intros ->. discriminate.
Qed.

Lemma nilOrEmpty_Some s : s <> "" -> nilOrEmpty (Some s) = false.
Proof.
  intros H. simpl. destruct (String.eqb_spec s ""); [contradiction | reflexivity].
Qed.

Lemma stdout_lookedUp (st : State W) input w :
  stdout (lookedUp st input w) = stdout st.
Proof. reflexivity. Qed.

Lemma afterLookup_second_nil v fd roleArn username (st : State W) out w :
  nilOrEmpty roleArn = false ->
  nilOrEmpty username = true ->
  LookupEvents env (lookupEventsInput "ResourceName" (aws.StringValue roleArn)) (world st)
    = (out, None, w) ->
  cloudtrail.LookupEventsOutput.Events out = [None] ->
  afterLookup env v fd roleArn username st =
    (Panic nilDereference,
     lookedUp st (lookupEventsInput "ResourceName" (aws.StringValue roleArn)) w).
Proof.
  intros H1 H2 L E. unfold afterLookup. rewrite H1, H2. unfold bind.
  rewrite (GetUser_nil _ _ _ _ L E). reflexivity.
Qed.

Lemma resolveFinding_first_nil v fd key value (st : State W) out w :
  credential fd = Some (key, value) ->
  LookupEvents env (lookupEventsInput key value) (world st) = (out, None, w) ->
  cloudtrail.LookupEventsOutput.Events out = [None] ->
  resolveFinding env v fd st =
    (Panic nilDereference, lookedUp st (lookupEventsInput key value) w).
Proof.
  intros C L E. rewrite (resolveFinding_credential _ _ _ _ _ C).
  rewrite (GetRoleAndUser_nil _ _ _ _ _ L E). reflexivity.
Qed.

(** Everything the resolver can do for one finding detail.  It returns
    normally, with nothing, one error or one resolved identity added to
    standard output; or it panics on the nil event of a lookup's answer,
    with nothing added. *)
Lemma resolveFinding_outcome v fd (st : State W) :
  exists r st',
    resolveFinding env v fd st = (r, st') /\
    ((r = Ok tt /\
      (stdout st' = stdout st \/
       (exists e, stdout st' = (stdout st ++ [PError e])%list) \/
       (exists arn user,
           arn <> "" /\ credential fd <> None /\
           stdout st' =
             (stdout st ++ [printed v (resolved fd (Some arn) (Some user))])%list))) \/
     (r = Panic nilDereference /\
      stdout st' = stdout st /\
      exists input w0 out w1,
        LookupEvents env input w0 = (out, None, w1) /\
        cloudtrail.LookupEventsOutput.Events out = [None])).
Proof.
  destruct (credential fd) as [[key value]|] eqn:C.
  2:{ exists (Ok tt), st. split; [apply resolveFinding_no_credential; exact C|].
      left. split; [reflexivity | left; reflexivity]. }
  destruct (LookupEvents env (lookupEventsInput key value) (world st))
    as [[out err] w] eqn:L.
  destruct (lookupAnswer_shape key value out err) as [[e A]|[[event|] [-> [E A]]]].
  { eexists _, _. split; [eapply resolveFinding_first_failed; eassumption|].
    left. split; [reflexivity|]. right; left. eexists. reflexivity. }
  2:{ eexists _, _. split; [eapply resolveFinding_first_nil; eassumption|].
      right. split; [reflexivity|]. split; [reflexivity|]. eauto 6. }
  rewrite (resolveFinding_credential _ _ _ _ _ C).
  destruct (GetRoleAndUser_found _ _ _ _ _ _ L E) as [r [G [[e ->]|[data [ui [arn [U [I [Ar ->]]]]]]]]];
    rewrite G.
  { eexists _, _. split; [reflexivity|]. left. split; [reflexivity|].
    right; left. eexists. reflexivity. }
  set (st1 := lookedUp st (lookupEventsInput key value) w).
  set (user := aws.StringValue (json.asString (json.get "userName" ui))).
  destruct (nilOrEmpty (Some arn)) eqn:N1.
  { exists (Ok tt), st1. split; [apply afterLookup_skip; exact N1|].
    left. split; [reflexivity | left; reflexivity]. }
  destruct (nilOrEmpty_false _ N1) as [arn' [Earn Harn]].
  inversion Earn; subst arn'; clear Earn.
  destruct (nilOrEmpty (Some user)) eqn:N2.
  2:{ eexists _, _. split; [apply afterLookup_direct; assumption|].
      left. split; [reflexivity|]. right; right. exists arn, user.
      repeat split; [assumption | congruence]. }
  destruct (LookupEvents env (lookupEventsInput "ResourceName" arn) (world st1))
    as [[out2 err2] w2] eqn:L2.
  destruct (lookupAnswer_shape "ResourceName" arn out2 err2)
    as [[e A2]|[[event2|] [-> [E2 A2]]]].
  { eexists _, _. split; [eapply (afterLookup_second_failed _ _ (Some arn)); eassumption|].
    left. split; [reflexivity|]. right; left. eexists. reflexivity. }
  2:{ eexists _, _. split; [eapply (afterLookup_second_nil _ _ (Some arn)); eassumption|].
      right. split; [reflexivity|]. split; [reflexivity|]. eauto 6. }
  eexists _, _. split; [eapply (afterLookup_second_found _ _ (Some arn)); eassumption|].
  left. split; [reflexivity|]. right; right. eexists arn, _.
  repeat split; [assumption | congruence].
Qed.

Lemma present_usable p sentinel : present p sentinel = true <-> usable p sentinel.
Proof.
  unfold present, usable. destruct p as [s|].
  - destruct (String.eqb_spec s ""), (String.eqb_spec s sentinel); simpl; split;
      try discriminate;
      try (intros [x [E [A B]]]; inversion E; subst; contradiction);
      intros _; [exists s; auto | reflexivity].
  - split; [discriminate | intros [x [E _]]; discriminate].
Qed.

Lemma present_not_usable p sentinel : present p sentinel = false <-> ~ usable p sentinel.
Proof.
  rewrite <- present_usable. destruct (present p sentinel); split; intros H.
  - discriminate.
  - exfalso; apply H; reflexivity.
  - discriminate.
  - reflexivity.
Qed.

Lemma credential_accessKey fd :
  present (AccessKeyID fd) GeneratedFindingAccessKeyId = true ->
  credential fd = Some ("AccessKeyId", aws.StringValue (AccessKeyID fd)).
Proof. intros H. unfold credential. rewrite H. reflexivity. Qed.

Lemma credential_principal fd :
  present (AccessKeyID fd) GeneratedFindingAccessKeyId = false ->
  present (PrincipalID fd) GeneratedFindingPrincipalId = true ->
  credential fd = Some ("ResourceName", aws.StringValue (PrincipalID fd)).
Proof. intros H1 H2. unfold credential. rewrite H1, H2. reflexivity. Qed.


(** The requests of the resolver: the first lookup, under the credential
    reference, and at most one more, by role. *)
Lemma resolveFinding_calls v fd key value (st : State W) :
  credential fd = Some (key, value) ->
  exists more,
    calls (snd (resolveFinding env v fd st)) =
      (calls st ++ CallLookupEvents (lookupEventsInput key value) :: more)%list /\
    (more = [] \/
     exists roleArn, more = [CallLookupEvents (lookupEventsInput "ResourceName" roleArn)]).
Proof.
  intros C.
  destruct (LookupEvents env (lookupEventsInput key value) (world st))
    as [[out err] w] eqn:L.
  destruct (lookupAnswer_shape key value out err) as [[e A]|[[event|] [-> [E A]]]].
  { rewrite (resolveFinding_first_failed _ _ _ _ _ _ _ _ _ C L A).
    exists []. split; [reflexivity | left; reflexivity]. }
  2:{ rewrite (resolveFinding_first_nil _ _ _ _ _ _ _ C L E).
      exists []. split; [reflexivity | left; reflexivity]. }
  rewrite (resolveFinding_credential _ _ _ _ _ C).
  destruct (GetRoleAndUser_found _ _ _ _ _ _ L E) as [r [G [[e ->]|[data [ui [arn [U [I [Ar ->]]]]]]]]];
    rewrite G.
  { exists []. split; [reflexivity | left; reflexivity]. }
  set (st1 := lookedUp st (lookupEventsInput key value) w).
  set (user := aws.StringValue (json.asString (json.get "userName" ui))).
  destruct (nilOrEmpty (Some arn)) eqn:N1.
  { rewrite (afterLookup_skip _ _ _ _ _ N1).
    exists []. split; [reflexivity | left; reflexivity]. }
  destruct (nilOrEmpty (Some user)) eqn:N2.
  2:{ rewrite (afterLookup_direct _ _ _ _ _ N1 N2).
      exists []. split; [reflexivity | left; reflexivity]. }
  destruct (LookupEvents env (lookupEventsInput "ResourceName" arn) (world st1))
    as [[out2 err2] w2] eqn:L2.
  exists [CallLookupEvents (lookupEventsInput "ResourceName" arn)].
  split; [|right; eexists; reflexivity].
  destruct (lookupAnswer_shape "ResourceName" arn out2 err2)
    as [[e A2]|[[event2|] [-> [E2 A2]]]].
  - rewrite (afterLookup_second_failed _ _ (Some arn) _ _ _ _ _ _ N1 N2 L2 A2).
    cbn [snd logged lookedUp calls st1]. rewrite <- app_assoc. reflexivity.
  - rewrite (afterLookup_second_found _ _ (Some arn) _ _ _ _ _ N1 N2 L2 E2).
    cbn [snd logged lookedUp calls st1]. rewrite <- app_assoc. reflexivity.
  - rewrite (afterLookup_second_nil _ _ (Some arn) _ _ _ _ N1 N2 L2 E2).
    cbn [snd logged lookedUp calls st1]. rewrite <- app_assoc. reflexivity.
Qed.

End Theory.

(** *** The lookup by role *)

Section Fallback.

Context {W : Type}.
Variable env : Env W.

(** The run of the resolver when the first lookup finds one event whose
    identity has a non-empty ARN and no user name. *)
Lemma resolveFinding_fallback v fd key value (st : State W)
      out1 w1 event1 data userIdentity roleArn :
  credential fd = Some (key, value) ->
  LookupEvents env (lookupEventsInput key value) (world st) = (out1, None, w1) ->
  cloudtrail.LookupEventsOutput.Events out1 = [Some event1] ->
  Unmarshal env (aws.StringValue (cloudtrail.Event.CloudTrailEvent event1))
    = (data, None) ->
  json.asObject (json.get "userIdentity" data) = Some userIdentity ->
  json.asString (json.get "arn" userIdentity) = Some roleArn ->
  roleArn <> "" ->
  aws.StringValue (json.asString (json.get "userName" userIdentity)) = "" ->
  resolveFinding env v fd st =
    match GetUser env roleArn (lookedUp st (lookupEventsInput key value) w1) with
    | (Ok (username, Some e), st') =>
        (Ok tt, logged st' (PError ("Unable to find role username from role arn: " ++ e)))
    | (Ok (username, None), st') =>
        (Ok tt, logged st' (printed v (resolved fd (Some roleArn) username)))
    | (Panic r, st') => (Panic r, st')
    end.
Proof.
  intros C L1 E1 U I A Harn Huser.
  rewrite (resolveFinding_first_found env v fd key value st out1 w1 event1 _ _ _
             C L1 E1 U I A).
  rewrite Huser. unfold afterLookup.
  rewrite (nilOrEmpty_Some _ Harn). cbn [nilOrEmpty String.eqb aws.StringValue].
  unfold bind.
  destruct (GetUser env roleArn _) as [[[username [e|]]|r] st']; try reflexivity.
  apply printFinding_run.
Qed.

Lemma GetUser_run roleArn (st : State W) out err w :
  LookupEvents env (lookupEventsInput "ResourceName" roleArn) (world st) = (out, err, w) ->
  exists res,
    GetUser env roleArn st =
      (res, lookedUp st (lookupEventsInput "ResourceName" roleArn) w) /\
    ((exists e, res = Ok (None, Some e)) \/
     (exists event,
         err = None /\ cloudtrail.LookupEventsOutput.Events out = [Some event] /\
         res = Ok (Some (aws.StringValue (cloudtrail.Event.Username event)), None)) \/
     (err = None /\ cloudtrail.LookupEventsOutput.Events out = [None] /\
      res = Panic nilDereference)).
Proof.
  intros L.
  destruct (lookupAnswer_shape "ResourceName" roleArn out err)
    as [[e A]|[[event|] [-> [E A]]]].
  - eexists. split; [apply (GetUser_failed env _ _ _ _ _ _ L A) | left; eauto].
  - eexists. split; [apply (GetUser_found env _ _ _ _ _ L E) | right; left; eauto].
  - eexists. split; [apply (GetUser_nil env _ _ _ _ L E) | right; right; auto].
Qed.

(** The lookup by role does not depend on the decoder. *)
Lemma GetUser_withDecoder decode roleArn (st : State W) :
  GetUser (withDecoder env decode) roleArn st = GetUser env roleArn st.
Proof. reflexivity. Qed.

End Fallback.

(** What the fallback does, in full: one more request, by role, and a result
    that is read from the [Username] field of the event it finds. *)
Lemma fallback_username {W : Type} (env : Env W) v fd key value (st : State W)
      out1 w1 event1 data userIdentity roleArn out2 err2 w2 :
  credential fd = Some (key, value) ->
  LookupEvents env (lookupEventsInput key value) (world st) = (out1, None, w1) ->
  cloudtrail.LookupEventsOutput.Events out1 = [Some event1] ->
  Unmarshal env (aws.StringValue (cloudtrail.Event.CloudTrailEvent event1))
    = (data, None) ->
  json.asObject (json.get "userIdentity" data) = Some userIdentity ->
  json.asString (json.get "arn" userIdentity) = Some roleArn ->
  roleArn <> "" ->
  aws.StringValue (json.asString (json.get "userName" userIdentity)) = "" ->
  LookupEvents env (lookupEventsInput "ResourceName" roleArn) w1 = (out2, err2, w2) ->
  calls (snd (resolveFinding env v fd st)) =
    (calls st ++
     [CallLookupEvents (lookupEventsInput key value);
      CallLookupEvents (lookupEventsInput "ResourceName" roleArn)])%list /\
  (forall event2,
      err2 = None ->
      cloudtrail.LookupEventsOutput.Events out2 = [Some event2] ->
      resolveFinding env v fd st =
        (Ok tt,
         logged
           (lookedUp (lookedUp st (lookupEventsInput key value) w1)
              (lookupEventsInput "ResourceName" roleArn) w2)
           (printed v
              (resolved fd (Some roleArn)
                 (Some (aws.StringValue (cloudtrail.Event.Username event2))))))) /\
  (forall decode,
      decode (aws.StringValue (cloudtrail.Event.CloudTrailEvent event1)) =
        Unmarshal env (aws.StringValue (cloudtrail.Event.CloudTrailEvent event1)) ->
      resolveFinding (withDecoder env decode) v fd st = resolveFinding env v fd st).
Proof.
  intros C L1 E1 U I A Harn Huser L2.
  pose proof (resolveFinding_fallback env v fd key value st out1 w1 event1 _ _ _
                C L1 E1 U I A Harn Huser) as R.
  split; [|split].
  - rewrite R.
    destruct (GetUser_run env roleArn (lookedUp st (lookupEventsInput key value) w1) _ _ _ L2)
      as [r [G _]].
    rewrite G. destruct r as [[username [e|]]|r];
      cbn [snd logged lookedUp calls]; rewrite <- app_assoc; reflexivity.
  - intros event2 -> E2. rewrite R.
    rewrite (GetUser_found env roleArn
               (lookedUp st (lookupEventsInput key value) w1) out2 w2 event2 L2 E2).
    reflexivity.
  - intros decode D. rewrite R.
    assert (U' : Unmarshal (withDecoder env decode)
                   (aws.StringValue (cloudtrail.Event.CloudTrailEvent event1))
                 = (data, None)) by (cbn [Unmarshal withDecoder]; congruence).
    rewrite (resolveFinding_fallback (withDecoder env decode) v fd key value st
               out1 w1 event1 _ _ _ C L1 E1 U' I A Harn Huser).
    rewrite GetUser_withDecoder. reflexivity.
Qed.

(** *** The loops *)

Section Walker.

Context {W : Type}.
Variable env : Env W.

(** Reading the service part either panics or fills the five context
    fields; it touches neither the state nor the other fields. *)
Lemma withService_cases (fd : FindingDetail) service (st : State W) :
  withService fd service st = (Panic nilDereference, st) \/
  exists fd',
    withService fd service st = (Ok fd', st) /\
    ID fd' = ID fd /\ CreatedAt fd' = CreatedAt fd /\
    AccessKeyID fd' = AccessKeyID fd /\ PrincipalID fd' = PrincipalID fd.
Proof.
  unfold withService, bind, deref, ret.
  destruct (guardduty.Service.Action service) as [action|]; [|left; reflexivity].
  destruct (guardduty.Action.AwsApiCallAction action) as [call|]; [|left; reflexivity].
  destruct (guardduty.AwsApiCallAction.RemoteIpDetails call) as [remote|];
    [|left; reflexivity].
  destruct (guardduty.RemoteIpDetails.City remote) as [city|]; [|left; reflexivity].
  destruct (guardduty.RemoteIpDetails.Country remote) as [country|]; [|left; reflexivity].
  right. eexists. split; [reflexivity|]. repeat split.
Qed.

Lemma credential_same (fd fd' : FindingDetail) :
  AccessKeyID fd' = AccessKeyID fd ->
  PrincipalID fd' = PrincipalID fd ->
  credential fd' = credential fd.
Proof. intros A P. unfold credential. rewrite A, P. reflexivity. Qed.

(** A finding with access key details and a readable service part is
    resolved as a finding detail with the same identifier and the same two
    credential references. *)
Lemma processFinding_readable v finding resource details (st : State W) :
  guardduty.Finding.Resource finding = Some resource ->
  guardduty.Resource.AccessKeyDetails resource = Some details ->
  serviceReadable finding = true ->
  exists fd,
    processFinding env v (Some finding) st = resolveFinding env v fd st /\
    ID fd = guardduty.Finding.Id finding /\
    AccessKeyID fd = guardduty.AccessKeyDetails.AccessKeyId details /\
    PrincipalID fd = guardduty.AccessKeyDetails.PrincipalId details /\
    credential fd = credential (detailOf finding details).
Proof.
  intros R D S. unfold processFinding, bind, deref. rewrite R, D.
  unfold serviceReadable in S.
  destruct (guardduty.Finding.Service finding) as [service|].
  - unfold withService, bind, deref, ret.
    destruct (guardduty.Service.Action service) as [action|]; [|discriminate].
    destruct (guardduty.Action.AwsApiCallAction action) as [call|]; [|discriminate].
    destruct (guardduty.AwsApiCallAction.RemoteIpDetails call) as [remote|];
      [|discriminate].
    destruct (guardduty.RemoteIpDetails.City remote) as [city|]; [|discriminate].
    destruct (guardduty.RemoteIpDetails.Country remote) as [country|]; [|discriminate].
    eexists. split; [reflexivity|]. repeat split.
  - eexists. split; [reflexivity|]. repeat split.
Qed.

(** The ways through the body of the loop up to the resolver. *)
Lemma processFinding_cases v finding (st : State W) :
  processFinding env v finding st = (Ok tt, st) \/
  processFinding env v finding st = (Panic nilDereference, st) \/
  (exists f resource,
      finding = Some f /\
      guardduty.Finding.Resource f = Some resource /\
      guardduty.Resource.AccessKeyDetails resource = None /\
      processFinding env v finding st =
        (Ok tt,
         logged st (PString (nl ++ "Skipping Non User Finding ID: " ++
                             aws.StringValue (guardduty.Finding.Id f))))) \/
  (exists f resource details fd,
      finding = Some f /\
      guardduty.Finding.Resource f = Some resource /\
      guardduty.Resource.AccessKeyDetails resource = Some details /\
      ID fd = guardduty.Finding.Id f /\
      AccessKeyID fd = guardduty.AccessKeyDetails.AccessKeyId details /\
      PrincipalID fd = guardduty.AccessKeyDetails.PrincipalId details /\
      processFinding env v finding st = resolveFinding env v fd st).
Proof.
  destruct finding as [f|]; [|left; reflexivity].
  unfold processFinding, bind, deref.
  destruct (guardduty.Finding.Resource f) as [resource|] eqn:R;
    [|right; left; reflexivity].
  destruct (guardduty.Resource.AccessKeyDetails resource) as [details|] eqn:D.
  2:{ destruct (viper.GetBool v VerboseFlag); [|left; reflexivity].
      right; right; left. exists f, resource. repeat split; assumption. }
  destruct (guardduty.Finding.Service f) as [service|] eqn:S.
  - destruct (withService_cases (detailOf f details) service st)
      as [P|[fd' [E [Hid [_ [Hak Hpid]]]]]]; unfold detailOf in *.
    + rewrite P. right; left; reflexivity.
    + rewrite E. right; right; right. exists f, resource, details, fd'.
      repeat split; assumption.
  - right; right; right. exists f, resource, details, (detailOf f details).
    repeat split; assumption.
Qed.


(** A pass through the body of the paging loop whose page request fails. *)
Lemma pageBody_list_failed v detectorID token (st : State W) out e w :
  ListFindings env (listFindingsInput v detectorID token) (world st) = (out, Some e, w) ->
  pageBody env v detectorID token st =
    (Ok (Again token),
     logged (listed st (listFindingsInput v detectorID token) w)
       (PError ("Unable to list Guard Duty findings: " ++ e))).
Proof.
  intros L. unfold pageBody, bind, callListFindings. rewrite L. reflexivity.
Qed.

(** A pass whose page is empty. *)
Lemma pageBody_empty v detectorID token (st : State W) out w :
  ListFindings env (listFindingsInput v detectorID token) (world st) = (out, None, w) ->
  guardduty.ListFindingsOutput.FindingIds out = [] ->
  pageBody env v detectorID token st =
    (Ok Break, listed st (listFindingsInput v detectorID token) w).
Proof.
  intros L E. unfold pageBody, bind, callListFindings. rewrite L. cbn. rewrite E.
  reflexivity.
Qed.

(** A pass whose page has findings: they are fetched, a failure of the fetch
    is logged, the findings returned are processed and the next token is
    tested. *)
Lemma pageBody_page v detectorID token (st : State W) out w findings err w' :
  ListFindings env (listFindingsInput v detectorID token) (world st) = (out, None, w) ->
  guardduty.ListFindingsOutput.FindingIds out <> [] ->
  GetFindings env
    (guardduty.GetFindingsInput.mk detectorID
       (guardduty.ListFindingsOutput.FindingIds out)) w = (findings, err, w') ->
  pageBody env v detectorID token st =
    (forEach (processFinding env v) (guardduty.GetFindingsOutput.Findings findings) ;;
     nextPage (guardduty.ListFindingsOutput.NextToken out))
      (let st' := fetched (listed st (listFindingsInput v detectorID token) w)
                    (guardduty.GetFindingsInput.mk detectorID
                       (guardduty.ListFindingsOutput.FindingIds out)) w' in
       match err with
       | Some e => logged st' (PError ("Unable to retrieve Guard Duty findings: " ++ e))
       | None => st'
       end).
Proof.
  intros L N G. unfold pageBody, bind, callListFindings, callGetFindings. rewrite L.
  cbn [world stdout calls].
  destruct (guardduty.ListFindingsOutput.FindingIds out) as [|i ids] eqn:E;
    [contradiction N; reflexivity|].
  cbn [length Nat.eqb world stdout calls]. rewrite G.
  destruct err as [e|]; reflexivity.
Qed.

(** The paging loop ends with the pass that decides to leave it. *)
Lemma pageLoop_stops fuel v detectorID token (st st' : State W) :
  pageBody env v detectorID token st = (Ok Break, st') ->
  pageLoop env (S fuel) v detectorID token st = (Finished (Ok tt), st').
Proof. intros H. cbn [pageLoop]. rewrite H. reflexivity. Qed.

(** It ends on an empty page. *)
Lemma pageLoop_empty_page fuel v detectorID token (st : State W) out w :
  ListFindings env (listFindingsInput v detectorID token) (world st) = (out, None, w) ->
  guardduty.ListFindingsOutput.FindingIds out = [] ->
  pageLoop env (S fuel) v detectorID token st =
    (Finished (Ok tt), listed st (listFindingsInput v detectorID token) w).
Proof.
  intros L E. apply pageLoop_stops. apply (pageBody_empty _ _ _ _ _ _ L E).
Qed.

(** After a page with findings, it ends when the next token is nil or
    empty and goes round with the token otherwise. *)
Lemma nextPage_run (token : option string) (st : State W) :
  nextPage token st =
    (Ok (if nilOrEmpty token then Break else Again token), st).
Proof. unfold nextPage. destruct (nilOrEmpty token); reflexivity. Qed.

(** A page request that fails whatever the world is fetched again and
    again: after any number of passes the loop is still going round, having
    sent that many times the same request and logged that many errors. *)
Lemma pageLoop_failing v detectorID token :
  (forall w, exists out e w',
      ListFindings env (listFindingsInput v detectorID token) w = (out, Some e, w')) ->
  forall fuel (st : State W),
    fst (pageLoop env fuel v detectorID token st) = StillLooping /\
    calls (snd (pageLoop env fuel v detectorID token st)) =
      (calls st ++
       repeat (CallListFindings (listFindingsInput v detectorID token)) fuel)%list /\
    length (stdout (snd (pageLoop env fuel v detectorID token st))) =
      length (stdout st) + fuel.
Proof.
  intros F. induction fuel as [|fuel IH]; intros st.
  - cbn. rewrite app_nil_r, Nat.add_0_r. repeat split.
  - destruct (F (world st)) as [out [e [w' L]]].
    cbn [pageLoop]. rewrite (pageBody_list_failed _ _ _ _ _ _ _ L).
    destruct (IH (logged (listed st (listFindingsInput v detectorID token) w')
                    (PError ("Unable to list Guard Duty findings: " ++ e))))
      as [H1 [H2 H3]].
    split; [exact H1|]. split.
    + rewrite H2. cbn [logged listed calls repeat]. rewrite <- app_assoc. reflexivity.
    + rewrite H3. cbn [logged listed stdout]. rewrite length_app. cbn [length]. lia.
Qed.

End Walker.

(** *** What a printed identity shows *)

Lemma append_assoc3 (a b c : string) : (a ++ b) ++ c = a ++ (b ++ c).
Proof.
  induction a as [|x a IH]; [reflexivity|]. cbn [append]. rewrite IH. reflexivity.
Qed.

Lemma printed_shows (v : viper.Viper) (fd : FindingDetail) (arn user : string) :
  showsIdentity v
    (printed v
       (mkFindingDetail (ID fd) (CreatedAt fd) (AccessKeyID fd) (PrincipalID fd)
          (Some arn) (Some user)
          (IPAddress fd) (ServiceName fd) (API fd) (City fd) (Country fd)))
    arn user.
Proof.
  unfold showsIdentity, printed.
  destruct (String.eqb (viper.GetString v OutputFlag) "json").
  - eexists. split; [reflexivity|]. split.
    + rewrite (required_member _ "assumeRoleARN" AssumedRoleARN);
        [reflexivity | simpl; tauto].
    + rewrite (required_member _ "username" Username);
        [reflexivity | simpl; tauto].
  - exists (nl ++ "Finding ID:         " ++ aws.StringValue (ID fd) ++
            nl ++ "Finding Created At: " ++ aws.StringValue (CreatedAt fd) ++
            nl ++ "Access Key ID:      " ++ aws.StringValue (AccessKeyID fd) ++
            nl ++ "Principal ID:       " ++ aws.StringValue (PrincipalID fd) ++ nl),
           ("IPv4:               " ++ aws.StringValue (IPAddress fd) ++
            nl ++ "Service Name:       " ++ aws.StringValue (ServiceName fd) ++
            nl ++ "API:                " ++ aws.StringValue (API fd) ++
            nl ++ "City, Country:      " ++ aws.StringValue (City fd) ++ ", " ++
            aws.StringValue (Country fd)).
    unfold textBlock, template. cbn [ID CreatedAt AccessKeyID PrincipalID
      AssumedRoleARN Username IPAddress ServiceName API City Country aws.StringValue].
    rewrite !append_assoc3. reflexivity.
Qed.

(** ** The claims *)

Section Claims.

Context {W : Type}.
Variable env : Env W.

Lemma itoa_inj n m : itoa n = itoa m -> n = m.
Proof.
  unfold itoa. intros H.
  apply (f_equal NilEmpty.uint_of_string) in H.
  rewrite !NilEmpty.usu in H. inversion H as [E].
  apply DecimalNat.Unsigned.to_uint_inj. exact E.
Qed.

(** C8, as amended.  The output flag selects one of two forms of output,
    never both.  When it is json, the finding detail is printed as its
    encoding, in which an optional member (access key id, principal id, IP
    address, service name, API, city, country) is left out exactly when its
    field is a nil pointer; a field that points to the empty string is
    encoded, as an empty string; the four other members are always there.
    Otherwise the text block is printed: the blank line and the ten rows of
    the template, each label followed by the value of its field, a nil
    pointer showing as the empty string, so that the block is the same as
    for the detail whose nil optional fields point to empty strings, whereas
    the encoding of that detail has all eleven members. *)
Theorem C8_output_modes (v : viper.Viper) (fd : FindingDetail) (st : State W) :
  printFinding v fd st = (Ok tt, logged st (printed v fd)) /\
  (viper.GetString v OutputFlag = "json" /\ printed v fd = PJSON (fst (Marshal fd))
   \/ viper.GetString v OutputFlag <> "json" /\ printed v fd = PString (textBlock fd)) /\
  (checkOutput v = None ->
   viper.GetString v OutputFlag = "json" \/ viper.GetString v OutputFlag = "text") /\
  (forall name field, In (name, field) optionalMembers ->
     json.field name (fst (Marshal fd)) = option_map json.JString (field fd) /\
     (In name (json.keys (fst (Marshal fd))) <-> field fd <> None)) /\
  (forall name field, In (name, field) requiredMembers ->
     json.field name (fst (Marshal fd)) = Some (encoded (field fd))) /\
  textBlock fd = textBlock (blank fd) /\
  json.keys (fst (Marshal (blank fd))) = allMembers /\
  (forall name field, In (name, field) optionalMembers ->
     field fd = Some "" ->
     json.field name (fst (Marshal fd)) = Some (json.JString "") /\
     In name (json.keys (fst (Marshal fd)))) /\
  textBlock fd =
    nl ++ "Finding ID:         " ++ aws.StringValue (ID fd) ++
    nl ++ "Finding Created At: " ++ aws.StringValue (CreatedAt fd) ++
    nl ++ "Access Key ID:      " ++ aws.StringValue (AccessKeyID fd) ++
    nl ++ "Principal ID:       " ++ aws.StringValue (PrincipalID fd) ++
    nl ++ "Assumed Role ARN:   " ++ aws.StringValue (AssumedRoleARN fd) ++
    nl ++ "Username:           " ++ aws.StringValue (Username fd) ++
    nl ++ "IPv4:               " ++ aws.StringValue (IPAddress fd) ++
    nl ++ "Service Name:       " ++ aws.StringValue (ServiceName fd) ++
    nl ++ "API:                " ++ aws.StringValue (API fd) ++
    nl ++ "City, Country:      " ++ aws.StringValue (City fd) ++ ", " ++
    aws.StringValue (Country fd) /\
  (AccessKeyID fd = None -> PrincipalID fd = None -> IPAddress fd = None ->
   ServiceName fd = None -> API fd = None -> City fd = None -> Country fd = None ->
   json.keys (fst (Marshal fd)) = ["id"; "createdAt"; "assumeRoleARN"; "username"] /\
   textBlock fd =
     nl ++ "Finding ID:         " ++ aws.StringValue (ID fd) ++
     nl ++ "Finding Created At: " ++ aws.StringValue (CreatedAt fd) ++
     nl ++ "Access Key ID:      " ++
     nl ++ "Principal ID:       " ++
     nl ++ "Assumed Role ARN:   " ++ aws.StringValue (AssumedRoleARN fd) ++
     nl ++ "Username:           " ++ aws.StringValue (Username fd) ++
     nl ++ "IPv4:               " ++
     nl ++ "Service Name:       " ++
     nl ++ "API:                " ++
     nl ++ "City, Country:      , ").
Proof.
  assert (Opt : forall name field, In (name, field) optionalMembers ->
     json.field name (fst (Marshal fd)) = option_map json.JString (field fd) /\
     (In name (json.keys (fst (Marshal fd))) <-> field fd <> None)).
  { intros name field H. pose proof (optional_member fd name field H) as F.
    split; [exact F|].
    unfold json.keys. unfold json.field in F.
    destruct (fst (Marshal fd)) as [| | | | |m] eqn:E; try discriminate E.
    rewrite get_keys, F. destruct (field fd); simpl; split; congruence. }
  split; [apply printFinding_run|].
  split.
  { unfold printed. destruct (String.eqb_spec (viper.GetString v OutputFlag) "json");
      [left | right]; split; auto. }
  split.
  { unfold checkOutput. cbn [existsb fst].
    destruct (String.eqb_spec (viper.GetString v OutputFlag) "text") as [->|];
      [right; reflexivity|].
    destruct (String.eqb_spec (viper.GetString v OutputFlag) "json") as [->|];
      [left; reflexivity|].
    simpl. discriminate. }
  split; [exact Opt|].
  split; [intros name field H; apply required_member; exact H|].
  split.
  { destruct fd as [i c a p r u ip sn api ci co].
    destruct a, p, ip, sn, api, ci, co; reflexivity. }
  split.
  { destruct fd as [i c a p r u ip sn api ci co]. destruct i, c, r, u; reflexivity. }
  split.
  { intros name field H E. destruct (Opt name field H) as [F K].
    split; [rewrite F, E; reflexivity|]. apply K. rewrite E. discriminate. }
  split; [reflexivity|].
  intros E1 E2 E3 E4 E5 E6 E7. split.
  - unfold json.keys, Marshal. cbn [fst]. rewrite E1, E2, E3, E4, E5, E6, E7.
    destruct (ID fd), (CreatedAt fd), (AssumedRoleARN fd), (Username fd); reflexivity.
  - unfold textBlock, template. rewrite E1, E2, E3, E4, E5, E6, E7. reflexivity.
Qed.

(** C9. Every request [LookupEvent] sends carries MaxResults = 1, and it
    sends exactly one request.  Hence, whenever the service's answer respects
    the cap, [LookupEvent] returns the service's own error, or the only
    event, or the error for zero events: the error that exactly one event
    was expected is returned for the count zero and for no other. *)
Theorem C9_cap_of_one_event (key value : string) (st : State W) out err w :
  LookupEvents env (lookupEventsInput key value) (world st) = (out, err, w) ->
  honoursMaxResults (lookupEventsInput key value) out ->
  cloudtrail.LookupEventsInput.MaxResults (lookupEventsInput key value) = Some 1%Z /\
  calls (snd (LookupEvent env key value st)) =
    (calls st ++ [CallLookupEvents (lookupEventsInput key value)])%list /\
  ((exists e, err = Some e /\
      fst (LookupEvent env key value st) =
        Ok (None,
            Some ("LookupEvents failed with Attribute Key '" ++ key ++
                  "' and Attribute Value '" ++ value ++ "': " ++ e))) \/
   (err = None /\ cloudtrail.LookupEventsOutput.Events out = [] /\
      fst (LookupEvent env key value st) = Ok (None, Some (notExactlyOne 0))) \/
   (exists event, err = None /\ cloudtrail.LookupEventsOutput.Events out = [event] /\
      fst (LookupEvent env key value st) = Ok (event, None))) /\
  (forall n, fst (LookupEvent env key value st) = Ok (None, Some (notExactlyOne n)) ->
             n = 0 /\ cloudtrail.LookupEventsOutput.Events out = []).
Proof.
  intros L Cap. rewrite (LookupEvent_run env _ _ _ _ _ _ L). cbn [fst snd].
  split; [reflexivity|]. split; [reflexivity|].
  assert (Len : length (cloudtrail.LookupEventsOutput.Events out) <= 1).
  { specialize (Cap 1%Z eq_refl). lia. }
  unfold lookupAnswer. destruct err as [e|].
  { split; [left; exists e; split; reflexivity|].
    intros n H. exfalso. unfold notExactlyOne in H. simpl in H. discriminate H. }
  destruct (cloudtrail.LookupEventsOutput.Events out) as [|a [|b l]].
  - split; [right; left; repeat split|].
    intros n H. injection H as H. split; [|reflexivity].
    symmetry. apply itoa_inj. exact H.
  - split; [right; right; exists a; repeat split|].
    intros n H. discriminate H.
  - simpl in Len. lia.
Qed.

(** C2. A lookup that the service answers without error and with a number of
    events other than one (none, or two or more) makes [LookupEvent] return
    an error and no event.  When this happens at the first lookup of a
    finding, or at the lookup by role that follows it, the resolver returns
    normally after logging exactly one line, that error: nothing is printed
    for the finding and the loop goes on with the next one. *)
Theorem C2_not_exactly_one_event (v : viper.Viper) (fd : FindingDetail) (st : State W) :
  (forall key value out w,
      LookupEvents env (lookupEventsInput key value) (world st) = (out, None, w) ->
      length (cloudtrail.LookupEventsOutput.Events out) <> 1 ->
      LookupEvent env key value st =
        (Ok (None,
             Some (notExactlyOne (length (cloudtrail.LookupEventsOutput.Events out)))),
         lookedUp st (lookupEventsInput key value) w)) /\
  (forall key value out w,
      credential fd = Some (key, value) ->
      LookupEvents env (lookupEventsInput key value) (world st) = (out, None, w) ->
      length (cloudtrail.LookupEventsOutput.Events out) <> 1 ->
      resolveFinding env v fd st =
        (Ok tt,
         logged (lookedUp st (lookupEventsInput key value) w)
           (PError (unableFrom key ++
                    noEventFor key value
                      (notExactlyOne
                         (length (cloudtrail.LookupEventsOutput.Events out))))))) /\
  (forall key value out1 w1 event1 data userIdentity roleArn out2 w2,
      credential fd = Some (key, value) ->
      LookupEvents env (lookupEventsInput key value) (world st) = (out1, None, w1) ->
      cloudtrail.LookupEventsOutput.Events out1 = [Some event1] ->
      Unmarshal env (aws.StringValue (cloudtrail.Event.CloudTrailEvent event1))
        = (data, None) ->
      json.asObject (json.get "userIdentity" data) = Some userIdentity ->
      json.asString (json.get "arn" userIdentity) = Some roleArn ->
      roleArn <> "" ->
      aws.StringValue (json.asString (json.get "userName" userIdentity)) = "" ->
      LookupEvents env (lookupEventsInput "ResourceName" roleArn) w1 = (out2, None, w2) ->
      length (cloudtrail.LookupEventsOutput.Events out2) <> 1 ->
      resolveFinding env v fd st =
        (Ok tt,
         logged
           (lookedUp (lookedUp st (lookupEventsInput key value) w1)
              (lookupEventsInput "ResourceName" roleArn) w2)
           (PError (noUserFor roleArn
                      (notExactlyOne
                         (length (cloudtrail.LookupEventsOutput.Events out2))))))).
Proof.
  split; [|split].
  - intros key value out w L N.
    rewrite (LookupEvent_run env _ _ _ _ _ _ L), (lookupAnswer_not_one _ _ _ N).
    reflexivity.
  - intros key value out w C L N.
    apply (resolveFinding_first_failed env v fd key value st out None w _ C L).
    apply lookupAnswer_not_one. exact N.
  - intros key value out1 w1 event1 data ui arn out2 w2 C L1 E1 U I A Harn Huser L2 N.
    rewrite (resolveFinding_first_found env v fd key value st out1 w1 event1 _ _ _
               C L1 E1 U I A).
    rewrite Huser.
    apply (afterLookup_second_failed env v fd (Some arn) (Some "") _ out2 None w2).
    + apply nilOrEmpty_Some. exact Harn.
    + reflexivity.
    + exact L2.
    + apply lookupAnswer_not_one. exact N.
Qed.

(** C4. The resolver chooses the credential reference in a fixed order.  If
    the access key id is usable (there, not empty, not the placeholder), the
    first request it sends is the lookup of AccessKeyId with that value.
    Otherwise, if the principal id is usable, the first request is the
    lookup of ResourceName with that value.  Otherwise it returns at once:
    the state is unchanged, so no request was sent and nothing printed.  The
    only request that can follow the first one is a lookup by role. *)
Theorem C4_dispatch_order (v : viper.Viper) (fd : FindingDetail) (st : State W) :
  (usable (AccessKeyID fd) GeneratedFindingAccessKeyId ->
   exists more,
     calls (snd (resolveFinding env v fd st)) =
       (calls st ++
        CallLookupEvents
          (lookupEventsInput "AccessKeyId" (aws.StringValue (AccessKeyID fd))) :: more)%list /\
     (more = [] \/
      exists roleArn,
        more = [CallLookupEvents (lookupEventsInput "ResourceName" roleArn)])) /\
  (~ usable (AccessKeyID fd) GeneratedFindingAccessKeyId ->
   usable (PrincipalID fd) GeneratedFindingPrincipalId ->
   exists more,
     calls (snd (resolveFinding env v fd st)) =
       (calls st ++
        CallLookupEvents
          (lookupEventsInput "ResourceName" (aws.StringValue (PrincipalID fd))) :: more)%list /\
     (more = [] \/
      exists roleArn,
        more = [CallLookupEvents (lookupEventsInput "ResourceName" roleArn)])) /\
  (~ usable (AccessKeyID fd) GeneratedFindingAccessKeyId ->
   ~ usable (PrincipalID fd) GeneratedFindingPrincipalId ->
   resolveFinding env v fd st = (Ok tt, st)).
Proof.
  split; [|split].
  - intros A. apply present_usable in A.
    apply resolveFinding_calls, credential_accessKey, A.
  - intros A P. apply present_not_usable in A. apply present_usable in P.
    apply resolveFinding_calls, credential_principal; assumption.
  - intros A P. apply present_not_usable in A. apply present_not_usable in P.
    apply resolveFinding_no_credential. unfold credential. rewrite A, P. reflexivity.
Qed.

(** C6. Take a finding detail whose access key id is usable, whose first
    lookup finds one event, and whose event's decoded identity has a
    non-empty ARN and no user name (absent, not a string, or empty).  Then
    the resolver sends exactly two requests, the second being the lookup of
    ResourceName with that ARN; when this lookup finds one event, the
    finding detail is printed with that ARN as its role and the [Username]
    field of that event (the empty string when it is nil) as its user name,
    and the line printed shows both, as the assumeRoleARN and username
    members in json mode and as the role and user rows in text mode; and the
    whole run is the same under any decoder that agrees with [Unmarshal] on
    the payload of the first event, so the payload of the second event is
    not decoded. *)
Theorem C6_username_from_second_event (v : viper.Viper) (fd : FindingDetail)
    (st : State W) out1 w1 event1 data userIdentity roleArn out2 err2 w2 :
  usable (AccessKeyID fd) GeneratedFindingAccessKeyId ->
  LookupEvents env
    (lookupEventsInput "AccessKeyId" (aws.StringValue (AccessKeyID fd))) (world st)
    = (out1, None, w1) ->
  cloudtrail.LookupEventsOutput.Events out1 = [Some event1] ->
  Unmarshal env (aws.StringValue (cloudtrail.Event.CloudTrailEvent event1))
    = (data, None) ->
  json.asObject (json.get "userIdentity" data) = Some userIdentity ->
  json.asString (json.get "arn" userIdentity) = Some roleArn ->
  roleArn <> "" ->
  aws.StringValue (json.asString (json.get "userName" userIdentity)) = "" ->
  LookupEvents env (lookupEventsInput "ResourceName" roleArn) w1 = (out2, err2, w2) ->
  calls (snd (resolveFinding env v fd st)) =
    (calls st ++
     [CallLookupEvents
        (lookupEventsInput "AccessKeyId" (aws.StringValue (AccessKeyID fd)));
      CallLookupEvents (lookupEventsInput "ResourceName" roleArn)])%list /\
  (forall event2,
      err2 = None ->
      cloudtrail.LookupEventsOutput.Events out2 = [Some event2] ->
      resolveFinding env v fd st =
        (Ok tt,
         logged
           (lookedUp
              (lookedUp st
                 (lookupEventsInput "AccessKeyId" (aws.StringValue (AccessKeyID fd))) w1)
              (lookupEventsInput "ResourceName" roleArn) w2)
           (printed v
              (mkFindingDetail
                 (ID fd) (CreatedAt fd) (AccessKeyID fd) (PrincipalID fd)
                 (Some roleArn)
                 (Some (aws.StringValue (cloudtrail.Event.Username event2)))
                 (IPAddress fd) (ServiceName fd) (API fd) (City fd) (Country fd)))) /\
      exists line,
        stdout (snd (resolveFinding env v fd st)) = (stdout st ++ [line])%list /\
        showsIdentity v line roleArn
          (aws.StringValue (cloudtrail.Event.Username event2))) /\
  (forall decode,
      decode (aws.StringValue (cloudtrail.Event.CloudTrailEvent event1)) =
        Unmarshal env (aws.StringValue (cloudtrail.Event.CloudTrailEvent event1)) ->
      resolveFinding (withDecoder env decode) v fd st = resolveFinding env v fd st).
Proof.
  intros A L1 E1 U I Ar Harn Huser L2. apply present_usable in A.
  destruct (fallback_username env v fd _ _ st _ _ _ _ _ _ _ _ _
              (credential_accessKey fd A) L1 E1 U I Ar Harn Huser L2) as [H1 [H2 H3]].
  split; [exact H1|]. split; [|exact H3].
  intros event2 Herr E2. specialize (H2 event2 Herr E2). split; [exact H2|].
  rewrite H2. eexists. split; [reflexivity|]. apply printed_shows.
Qed.

(** C10. The lookup by role is not reserved to the access-key path.  Take a
    finding detail whose access key id is not usable and whose principal id
    is, whose first lookup (ResourceName with the principal id) finds one
    event, and whose event's decoded identity has a non-empty ARN and no user
    name.  Then the resolver sends the same second request, the lookup of
    ResourceName with that ARN, and when it finds one event the finding
    detail is printed with that ARN as its role and the [Username] field of
    that event as its user name: the line printed shows both, as the
    assumeRoleARN and username members in json mode and as the role and user
    rows in text mode. *)
Theorem C10_fallback_on_principal_path (v : viper.Viper) (fd : FindingDetail)
    (st : State W) out1 w1 event1 data userIdentity roleArn out2 err2 w2 :
  ~ usable (AccessKeyID fd) GeneratedFindingAccessKeyId ->
  usable (PrincipalID fd) GeneratedFindingPrincipalId ->
  LookupEvents env
    (lookupEventsInput "ResourceName" (aws.StringValue (PrincipalID fd))) (world st)
    = (out1, None, w1) ->
  cloudtrail.LookupEventsOutput.Events out1 = [Some event1] ->
  Unmarshal env (aws.StringValue (cloudtrail.Event.CloudTrailEvent event1))
    = (data, None) ->
  json.asObject (json.get "userIdentity" data) = Some userIdentity ->
  json.asString (json.get "arn" userIdentity) = Some roleArn ->
  roleArn <> "" ->
  aws.StringValue (json.asString (json.get "userName" userIdentity)) = "" ->
  LookupEvents env (lookupEventsInput "ResourceName" roleArn) w1 = (out2, err2, w2) ->
  calls (snd (resolveFinding env v fd st)) =
    (calls st ++
     [CallLookupEvents
        (lookupEventsInput "ResourceName" (aws.StringValue (PrincipalID fd)));
      CallLookupEvents (lookupEventsInput "ResourceName" roleArn)])%list /\
  (forall event2,
      err2 = None ->
      cloudtrail.LookupEventsOutput.Events out2 = [Some event2] ->
      resolveFinding env v fd st =
        (Ok tt,
         logged
           (lookedUp
              (lookedUp st
                 (lookupEventsInput "ResourceName" (aws.StringValue (PrincipalID fd))) w1)
              (lookupEventsInput "ResourceName" roleArn) w2)
           (printed v
              (mkFindingDetail
                 (ID fd) (CreatedAt fd) (AccessKeyID fd) (PrincipalID fd)
                 (Some roleArn)
                 (Some (aws.StringValue (cloudtrail.Event.Username event2)))
                 (IPAddress fd) (ServiceName fd) (API fd) (City fd) (Country fd)))) /\
      exists line,
        stdout (snd (resolveFinding env v fd st)) = (stdout st ++ [line])%list /\
        showsIdentity v line roleArn
          (aws.StringValue (cloudtrail.Event.Username event2))).
Proof.
  intros A P L1 E1 U I Ar Harn Huser L2.
  apply present_not_usable in A. apply present_usable in P.
  destruct (fallback_username env v fd _ _ st _ _ _ _ _ _ _ _ _
              (credential_principal fd A P) L1 E1 U I Ar Harn Huser L2) as [H1 [H2 _]].
  split; [exact H1|].
  intros event2 Herr E2. specialize (H2 event2 Herr E2). split; [exact H2|].
  rewrite H2. eexists. split; [reflexivity|]. apply printed_shows.
Qed.



(** C1. One detector, one page with one finding whose access key id is
    AKIA123 (active findings are listed: the archived flag is off), a first
    lookup of AccessKeyId/AKIA123 that finds one event whose decoded identity
    has the ARN arn:aws:iam::111:role/X and no user name, and a second lookup
    of ResourceName/that ARN that finds one event whose user name is alice.
    In json mode the command then ends normally, having sent exactly these
    five requests and printed exactly one line, an encoded object whose
    assumeRoleARN member is that ARN and whose username member is alice. *)
Theorem C1_end_to_end_scenario (fuel : nat) (v : viper.Viper) (st : State W)
    detector findingID finding resource details
    w1 w2 w3 out1 w4 event1 data userIdentity out2 w5 event2 :
  checkConfig env v = None ->
  viper.GetString v OutputFlag = "json" ->
  viper.GetBool v ArchivedFlag = false ->
  EnvCredentialsGet env (world st) = None ->
  NewSession env (world st) = None ->
  ListDetectors env (world st) =
    (guardduty.ListDetectorsOutput.mk [detector], None, w1) ->
  ListFindings env (listFindingsInput v detector None) w1 =
    (guardduty.ListFindingsOutput.mk [findingID] None, None, w2) ->
  GetFindings env (guardduty.GetFindingsInput.mk detector [findingID]) w2 =
    (guardduty.GetFindingsOutput.mk [Some finding], None, w3) ->
  guardduty.Finding.Resource finding = Some resource ->
  guardduty.Resource.AccessKeyDetails resource = Some details ->
  guardduty.AccessKeyDetails.AccessKeyId details = Some "AKIA123" ->
  serviceReadable finding = true ->
  LookupEvents env (lookupEventsInput "AccessKeyId" "AKIA123") w3 = (out1, None, w4) ->
  cloudtrail.LookupEventsOutput.Events out1 = [Some event1] ->
  Unmarshal env (aws.StringValue (cloudtrail.Event.CloudTrailEvent event1))
    = (data, None) ->
  json.asObject (json.get "userIdentity" data) = Some userIdentity ->
  json.asString (json.get "arn" userIdentity) = Some "arn:aws:iam::111:role/X" ->
  json.get "userName" userIdentity = None ->
  LookupEvents env (lookupEventsInput "ResourceName" "arn:aws:iam::111:role/X") w4
    = (out2, None, w5) ->
  cloudtrail.LookupEventsOutput.Events out2 = [Some event2] ->
  cloudtrail.Event.Username event2 = Some "alice" ->
  exists doc,
    main env (S fuel) v st =
      (Some 0%Z,
       mkState w5
         (stdout st ++ [PJSON doc])
         (calls st ++
          [CallListDetectors;
           CallListFindings (listFindingsInput v detector None);
           CallGetFindings (guardduty.GetFindingsInput.mk detector [findingID]);
           CallLookupEvents (lookupEventsInput "AccessKeyId" "AKIA123");
           CallLookupEvents (lookupEventsInput "ResourceName" "arn:aws:iam::111:role/X")])) /\
    json.field "assumeRoleARN" doc = Some (json.JString "arn:aws:iam::111:role/X") /\
    json.field "username" doc = Some (json.JString "alice") /\
    cloudtrail.LookupEventsInput.LookupAttributes
      (lookupEventsInput "AccessKeyId" "AKIA123") =
      [cloudtrail.LookupAttribute.mk (Some "AccessKeyId") (Some "AKIA123")] /\
    guardduty.FindingCriteria.Criterion
      (guardduty.ListFindingsInput.FindingCriteria (listFindingsInput v detector None)) =
      [("service.archived", guardduty.Condition.mk ["false"])].
Proof.
  intros C J Ar G S LD LF GF R D AK SR L1 E1 U I A UN L2 E2 AL.
  set (st1 := mkState w1 (stdout st) (calls st ++ [CallListDetectors])).
  set (st3 := fetched (listed st1 (listFindingsInput v detector None) w2)
                (guardduty.GetFindingsInput.mk detector [findingID]) w3).
  destruct (processFinding_readable env v finding resource details st3 R D SR)
    as [fd [P [Hid [Hak [Hpid _]]]]].
  rewrite AK in Hak.
  assert (Cr : credential fd = Some ("AccessKeyId", "AKIA123")).
  { unfold credential. rewrite Hak. reflexivity. }
  assert (Huser : aws.StringValue (json.asString (json.get "userName" userIdentity)) = "")
    by (rewrite UN; reflexivity).
  assert (Harn : "arn:aws:iam::111:role/X" <> "") by discriminate.
  destruct (fallback_username env v fd _ _ st3 _ _ _ _ _ _ _ _ _
              Cr L1 E1 U I A Harn Huser L2) as [_ [F _]].
  specialize (F event2 eq_refl E2). rewrite AL in F. cbn [aws.StringValue] in F.
  assert (Page : pageBody env v detector None st1 =
                 (Ok Break,
                  logged
                    (lookedUp (lookedUp st3 (lookupEventsInput "AccessKeyId" "AKIA123") w4)
                       (lookupEventsInput "ResourceName" "arn:aws:iam::111:role/X") w5)
                    (printed v (resolved fd (Some "arn:aws:iam::111:role/X")
                                  (Some "alice"))))).
  { rewrite (pageBody_page env v detector None st1 _ w2 _ None w3 LF
               ltac:(discriminate) GF).
    cbn [guardduty.GetFindingsOutput.Findings guardduty.ListFindingsOutput.FindingIds
         guardduty.ListFindingsOutput.NextToken forEach].
    fold st3. unfold bind at 1. unfold bind at 1. rewrite P, F. reflexivity. }
  exists (fst (Marshal (resolved fd (Some "arn:aws:iam::111:role/X") (Some "alice")))).
  split.
  - unfold main, findGuardDutyUserFunction. rewrite C, G, S, LD.
    cbn [guardduty.ListDetectorsOutput.DetectorIds detectorLoop pageLoop].
    fold st1. rewrite Page.
    unfold printed. rewrite J. cbn [String.eqb Ascii.eqb Bool.eqb].
    unfold logged, lookedUp, st3, fetched, listed, st1. cbn [world stdout calls].
    rewrite <- !app_assoc. reflexivity.
  - split; [|split; [|split]].
    + rewrite (required_member _ "assumeRoleARN" AssumedRoleARN);
        [reflexivity | simpl; tauto].
    + rewrite (required_member _ "username" Username);
        [reflexivity | simpl; tauto].
    + reflexivity.
    + unfold listFindingsInput. rewrite Ar. reflexivity.
Qed.

End Claims.

(** ** Concrete runs *)

Lemma failingList_pageLoop (fuel : nat) (out : list Printed) (sent : list Call) :
  pageLoop Scenario.failingList fuel Scenario.v (Some "d-1") None (mkState tt out sent) =
    (StillLooping,
     mkState tt
       (out ++ repeat (PError "Unable to list Guard Duty findings: RequestError") fuel)
       (sent ++ repeat (CallListFindings Scenario.firstPage) fuel)).
Proof.
  revert out sent. induction fuel as [|fuel IH]; intros out sent.
  - cbn [pageLoop repeat]. rewrite !app_nil_r. reflexivity.
  - cbn [pageLoop].
    rewrite (pageBody_list_failed Scenario.failingList Scenario.v (Some "d-1") None
               (mkState tt out sent)
               (guardduty.ListFindingsOutput.mk [] None) "RequestError" tt eq_refl).
    unfold logged, listed. cbn [world stdout calls]. rewrite IH.
    cbn [repeat]. rewrite <- !app_assoc. reflexivity.
Qed.

(** C3. With a page request that fails every time (here: the first page of
    the only detector), the paging loop never ends: for every number of
    passes allowed the command is still running, and what it has done is to
    send the same request, with the same nil token, once per pass, and to log
    the same error once per pass.  The failed request is not taken as an
    empty page, which would end the loop. *)
Theorem C3_failed_page_request_repeats (fuel : nat) :
  main Scenario.failingList fuel Scenario.v Scenario.start =
    (None,
     mkState tt
       (repeat (PError "Unable to list Guard Duty findings: RequestError") fuel)
       (CallListDetectors :: repeat (CallListFindings Scenario.firstPage) fuel)).
Proof.
  unfold main, findGuardDutyUserFunction.
  change (checkConfig Scenario.failingList Scenario.v) with (@None error).
  cbn [Scenario.failingList Scenario.scripted EnvCredentialsGet NewSession ListDetectors
       Scenario.start world stdout calls guardduty.ListDetectorsOutput.DetectorIds
       detectorLoop app].
  change (Scenario.scripted [Some Scenario.aliceEvent] (Some "RequestError") None)
    with Scenario.failingList.
  rewrite failingList_pageLoop. reflexivity.
Qed.

Lemma C1_witness :
  exists doc,
    main Scenario.env 1 Scenario.v Scenario.start =
      (Some 0%Z,
       mkState tt
         [PJSON doc]
         [CallListDetectors;
          CallListFindings Scenario.firstPage;
          CallGetFindings (guardduty.GetFindingsInput.mk (Some "d-1") [Some "f-1"]);
          CallLookupEvents (lookupEventsInput "AccessKeyId" "AKIA123");
          CallLookupEvents (lookupEventsInput "ResourceName" "arn:aws:iam::111:role/X")]) /\
    json.field "assumeRoleARN" doc = Some (json.JString "arn:aws:iam::111:role/X") /\
    json.field "username" doc = Some (json.JString "alice") /\
    cloudtrail.LookupEventsInput.LookupAttributes
      (lookupEventsInput "AccessKeyId" "AKIA123") =
      [cloudtrail.LookupAttribute.mk (Some "AccessKeyId") (Some "AKIA123")] /\
    guardduty.FindingCriteria.Criterion
      (guardduty.ListFindingsInput.FindingCriteria Scenario.firstPage) =
      [("service.archived", guardduty.Condition.mk ["false"])].
Proof.
  exact (C1_end_to_end_scenario Scenario.env 0 Scenario.v Scenario.start
           (Some "d-1") (Some "f-1") Scenario.finding
           (guardduty.Resource.mk
              (Some (guardduty.AccessKeyDetails.mk (Some "AKIA123") None)))
           (guardduty.AccessKeyDetails.mk (Some "AKIA123") None)
           tt tt tt
           (cloudtrail.LookupEventsOutput.mk [Some Scenario.assumeRoleEvent] None) tt
           Scenario.assumeRoleEvent Scenario.decoded
           [("arn", json.JString Scenario.roleX)]
           (cloudtrail.LookupEventsOutput.mk [Some Scenario.aliceEvent] None) tt
           Scenario.aliceEvent
           eq_refl eq_refl eq_refl eq_refl eq_refl eq_refl eq_refl eq_refl eq_refl
           eq_refl eq_refl eq_refl eq_refl eq_refl eq_refl eq_refl eq_refl eq_refl
           eq_refl eq_refl eq_refl).
Defined.

Lemma C2_witness :
  resolveFinding Scenario.twoEvents Scenario.v Scenario.detail Scenario.start =
    (Ok tt,
     logged
       (lookedUp
          (lookedUp Scenario.start (lookupEventsInput "AccessKeyId" "AKIA123") tt)
          (lookupEventsInput "ResourceName" Scenario.roleX) tt)
       (PError (noUserFor Scenario.roleX (notExactlyOne 2)))).
Proof.
  refine (proj2 (proj2 (C2_not_exactly_one_event Scenario.twoEvents Scenario.v
                          Scenario.detail Scenario.start))
            "AccessKeyId" "AKIA123"
            (cloudtrail.LookupEventsOutput.mk [Some Scenario.assumeRoleEvent] None) tt
            Scenario.assumeRoleEvent Scenario.decoded
            [("arn", json.JString Scenario.roleX)] Scenario.roleX
            (cloudtrail.LookupEventsOutput.mk
               [Some Scenario.aliceEvent; Some Scenario.aliceEvent] None) tt
            eq_refl eq_refl eq_refl eq_refl eq_refl eq_refl _ eq_refl eq_refl _);
    discriminate.
Defined.

Lemma C4_witness :
  ~ usable (AccessKeyID Scenario.sampleDetail) GeneratedFindingAccessKeyId /\
  ~ usable (PrincipalID Scenario.sampleDetail) GeneratedFindingPrincipalId /\
  resolveFinding Scenario.env Scenario.v Scenario.sampleDetail Scenario.start =
    (Ok tt, Scenario.start).
Proof.
  assert (A : ~ usable (AccessKeyID Scenario.sampleDetail) GeneratedFindingAccessKeyId).
  { intros [s [E [_ N]]]. apply N. cbn in E. congruence. }
  assert (P : ~ usable (PrincipalID Scenario.sampleDetail) GeneratedFindingPrincipalId).
  { intros [s [E _]]. discriminate E. }
  split; [exact A|]. split; [exact P|].
  exact (proj2 (proj2 (C4_dispatch_order Scenario.env Scenario.v
                         Scenario.sampleDetail Scenario.start)) A P).
Defined.

Lemma C6_witness :
  usable (AccessKeyID Scenario.detail) GeneratedFindingAccessKeyId /\
  calls (snd (resolveFinding Scenario.env Scenario.v Scenario.detail Scenario.start)) =
    [CallLookupEvents (lookupEventsInput "AccessKeyId" "AKIA123");
     CallLookupEvents (lookupEventsInput "ResourceName" Scenario.roleX)] /\
  resolveFinding Scenario.env Scenario.v Scenario.detail Scenario.start =
    (Ok tt,
     mkState tt
       [PJSON
          (json.JObject
             [("id", json.JString "f-1");
              ("createdAt", json.JString "2020-06-01T00:00:00Z");
              ("accessKeyID", json.JString "AKIA123");
              ("assumeRoleARN", json.JString "arn:aws:iam::111:role/X");
              ("username", json.JString "alice")])]
       [CallLookupEvents (lookupEventsInput "AccessKeyId" "AKIA123");
        CallLookupEvents (lookupEventsInput "ResourceName" Scenario.roleX)]).
Proof.
  assert (A : usable (AccessKeyID Scenario.detail) GeneratedFindingAccessKeyId).
  { exists "AKIA123". repeat split; discriminate. }
  assert (N : Scenario.roleX <> "") by discriminate.
  pose proof (C6_username_from_second_event Scenario.env Scenario.v Scenario.detail
                Scenario.start
                (cloudtrail.LookupEventsOutput.mk [Some Scenario.assumeRoleEvent] None) tt
                Scenario.assumeRoleEvent Scenario.decoded
                [("arn", json.JString Scenario.roleX)] Scenario.roleX
                (cloudtrail.LookupEventsOutput.mk [Some Scenario.aliceEvent] None) None tt
                A eq_refl eq_refl eq_refl eq_refl eq_refl N eq_refl eq_refl) as H.
  split; [exact A|]. split; [exact (proj1 H)|].
  exact (proj1 (proj1 (proj2 H) Scenario.aliceEvent eq_refl eq_refl)).
Defined.

Lemma C10_witness :
  ~ usable (AccessKeyID Scenario.principalDetail) GeneratedFindingAccessKeyId /\
  usable (PrincipalID Scenario.principalDetail) GeneratedFindingPrincipalId /\
  calls (snd (resolveFinding Scenario.env Scenario.v Scenario.principalDetail
                Scenario.start)) =
    [CallLookupEvents (lookupEventsInput "ResourceName" "AROA123");
     CallLookupEvents (lookupEventsInput "ResourceName" Scenario.roleX)] /\
  resolveFinding Scenario.env Scenario.v Scenario.principalDetail Scenario.start =
    (Ok tt,
     mkState tt
       [PJSON
          (json.JObject
             [("id", json.JString "f-1");
              ("createdAt", json.JString "2020-06-01T00:00:00Z");
              ("principalID", json.JString "AROA123");
              ("assumeRoleARN", json.JString "arn:aws:iam::111:role/X");
              ("username", json.JString "alice")])]
       [CallLookupEvents (lookupEventsInput "ResourceName" "AROA123");
        CallLookupEvents (lookupEventsInput "ResourceName" Scenario.roleX)]).
Proof.
  assert (A : ~ usable (AccessKeyID Scenario.principalDetail) GeneratedFindingAccessKeyId).
  { intros [s [E _]]. discriminate E. }
  assert (P : usable (PrincipalID Scenario.principalDetail) GeneratedFindingPrincipalId).
  { exists "AROA123". repeat split; discriminate. }
  assert (N : Scenario.roleX <> "") by discriminate.
  pose proof (C10_fallback_on_principal_path Scenario.env Scenario.v
                Scenario.principalDetail Scenario.start
                (cloudtrail.LookupEventsOutput.mk [Some Scenario.assumeRoleEvent] None) tt
                Scenario.assumeRoleEvent Scenario.decoded
                [("arn", json.JString Scenario.roleX)] Scenario.roleX
                (cloudtrail.LookupEventsOutput.mk [Some Scenario.aliceEvent] None) None tt
                A P eq_refl eq_refl eq_refl eq_refl eq_refl N eq_refl eq_refl) as H.
  split; [exact A|]. split; [exact P|]. split; [exact (proj1 H)|].
  exact (proj1 (proj2 H Scenario.aliceEvent eq_refl eq_refl)).
Defined.


(** The counterexample to C8 as stated: in json mode, the finding detail
    whose access key id points to the empty string is printed with its
    accessKeyID member, an empty string; the member is not left out. *)
Lemma C8_counterexample :
  viper.GetString Scenario.v OutputFlag = "json" /\
  aws.StringValue (AccessKeyID Cases.emptyKey) = "" /\
  stdout (snd (resolveFinding Scenario.env Scenario.v Cases.emptyKey Scenario.start)) =
    [PJSON
       (json.JObject
          [("id", json.JString "f-1");
           ("createdAt", json.JString "2020-06-01T00:00:00Z");
           ("accessKeyID", json.JString "");
           ("principalID", json.JString "AROA123");
           ("assumeRoleARN", json.JString "arn:aws:iam::111:role/X");
           ("username", json.JString "alice")])] /\
  In "accessKeyID" (json.keys (fst (Marshal Cases.emptyKey))).
Proof.
  split; [reflexivity|]. split; [reflexivity|]. split; [reflexivity|].
  simpl. tauto.
Qed.

Lemma C9_witness :
  honoursMaxResults (lookupEventsInput "AccessKeyId" "AKIA999")
    (cloudtrail.LookupEventsOutput.mk [] None) /\
  cloudtrail.LookupEventsInput.MaxResults (lookupEventsInput "AccessKeyId" "AKIA999")
    = Some 1%Z /\
  calls (snd (LookupEvent Scenario.env "AccessKeyId" "AKIA999" Scenario.start)) =
    [CallLookupEvents (lookupEventsInput "AccessKeyId" "AKIA999")].
Proof.
  assert (H : honoursMaxResults (lookupEventsInput "AccessKeyId" "AKIA999")
                (cloudtrail.LookupEventsOutput.mk [] None)).
  { intros m E. injection E as E. subst m. cbn. lia. }
  pose proof (C9_cap_of_one_event Scenario.env "AccessKeyId" "AKIA999" Scenario.start
                (cloudtrail.LookupEventsOutput.mk [] None) None tt eq_refl H) as T.
  split; [exact H|]. split; [exact (proj1 T) | exact (proj1 (proj2 T))].
Defined.


(** ** Further properties of the code *)

(** *** The configuration checks *)

Section Configuration.

Context {W : Type}.
Variable env : Env W.

Lemma length_zero (s : string) : Nat.eqb (String.length s) 0 = true <-> s = "".
Proof.
  destruct s as [|c s]; simpl; split; try reflexivity; discriminate.
Qed.

Lemma member_existsb (r : string) (regions : list string) :
  existsb (String.eqb r) regions = true <-> In r regions.
Proof.
  rewrite existsb_exists. split.
  - intros [x [I E]]. apply String.eqb_eq in E. subst x. exact I.
  - intros I. exists r. split; [exact I | apply String.eqb_refl].
Qed.

Lemma checkOutput_accepts (v : viper.Viper) :
  checkOutput v = None <->
  (viper.GetString v OutputFlag = "text" \/ viper.GetString v OutputFlag = "json").
Proof.
  unfold checkOutput. cbn [existsb fst].
  destruct (String.eqb_spec (viper.GetString v OutputFlag) "text") as [->|T].
  { simpl. split; [left; reflexivity | reflexivity]. }
  destruct (String.eqb_spec (viper.GetString v OutputFlag) "json") as [->|J].
  { simpl. split; [right; reflexivity | reflexivity]. }
  simpl. split; [discriminate | intros [E|E]; contradiction].
Qed.

Lemma checkRegion_accepts (v : viper.Viper) :
  checkRegion env v = None <->
  exists regions,
    RegionsForService env (viper.GetString v AWSGuardDutyPartitionFlag)
      GuarddutyServiceID = Some regions /\
    viper.GetString v AWSGuardDutyPartitionFlag <> "" /\
    viper.GetString v AWSGuardDutyRegionFlag <> "" /\
    In (viper.GetString v AWSGuardDutyRegionFlag) regions.
Proof.
  unfold checkRegion.
  destruct (RegionsForService env _ GuarddutyServiceID) as [regions|].
  2:{ split; [discriminate | intros [r [E _]]; discriminate]. }
  destruct (Nat.eqb (String.length (viper.GetString v AWSGuardDutyPartitionFlag)) 0)
    eqn:P.
  { apply length_zero in P. split; [discriminate|].
    intros [r [_ [N _]]]. contradiction. }
  destruct (Nat.eqb (String.length (viper.GetString v AWSGuardDutyRegionFlag)) 0)
    eqn:R.
  { apply length_zero in R. split; [discriminate|].
    intros [r [_ [_ [N _]]]]. contradiction. }
  destruct (existsb (String.eqb (viper.GetString v AWSGuardDutyRegionFlag)) regions)
    eqn:X; cbn [negb].
  - apply member_existsb in X. split; [intros _|reflexivity].
    exists regions. repeat split.
    + intros E. apply length_zero in E. congruence.
    + intros E. apply length_zero in E. congruence.
    + exact X.
  - split; [discriminate|].
    intros [r [E [_ [_ I]]]]. injection E as <-.
    apply member_existsb in I. congruence.
Qed.

(** X1.  The configuration is accepted exactly when the endpoint table has the
    service in the partition, the partition and the region are not empty,
    the region is one of the table's, and the output is text or json. *)
Theorem checkConfig_accepts (v : viper.Viper) :
  checkConfig env v = None <->
  (exists regions,
      RegionsForService env (viper.GetString v AWSGuardDutyPartitionFlag)
        GuarddutyServiceID = Some regions /\
      viper.GetString v AWSGuardDutyPartitionFlag <> "" /\
      viper.GetString v AWSGuardDutyRegionFlag <> "" /\
      In (viper.GetString v AWSGuardDutyRegionFlag) regions) /\
  (viper.GetString v OutputFlag = "text" \/ viper.GetString v OutputFlag = "json").
Proof.
  rewrite <- checkRegion_accepts, <- checkOutput_accepts. unfold checkConfig.
  destruct (checkRegion env v) as [e|].
  - split; [discriminate | intros [H _]; discriminate].
  - destruct (checkOutput v) as [e|].
    + split; [discriminate | intros [_ H]; discriminate].
    + split; [intros _; split; reflexivity | reflexivity].
Qed.

(** X2.  The checks are made in a fixed order and the first that fails gives the
    error: the endpoint table, the partition, the region, and the output
    last.  An invalid output is reported only when the region checks pass.
    The error for a partition without endpoint table names the service
    only, neither a flag nor a value; the errors for the partition, the
    region and the output name the flag and the value refused. *)
Theorem checkConfig_first_error (v : viper.Viper) :
  let partition := viper.GetString v AWSGuardDutyPartitionFlag in
  let region := viper.GetString v AWSGuardDutyRegionFlag in
  let output := viper.GetString v OutputFlag in
  (RegionsForService env partition GuarddutyServiceID = None ->
   checkConfig env v =
     Some "Region check failed: could not find regions for service guardduty") /\
  (forall regions,
      RegionsForService env partition GuarddutyServiceID = Some regions ->
      partition = "" ->
      checkConfig env v =
        Some "Region check failed: aws-guardduty-partition is invalid: invalid partition ") /\
  (forall regions,
      RegionsForService env partition GuarddutyServiceID = Some regions ->
      partition <> "" ->
      ~ In region regions ->
      checkConfig env v =
        Some ("Region check failed: aws-guardduty-region is invalid: invalid region "
              ++ region)) /\
  (forall regions,
      RegionsForService env partition GuarddutyServiceID = Some regions ->
      partition <> "" ->
      In region regions ->
      region <> "" ->
      output <> "text" ->
      output <> "json" ->
      checkConfig env v =
        Some ("Output check failed: output is invalid: invalid output " ++ output)).
Proof.
  cbv zeta. unfold checkConfig, checkRegion. repeat apply conj.
  - intros T. rewrite T. reflexivity.
  - intros regions T P. rewrite T, P. reflexivity.
  - intros regions T P N. rewrite T.
    destruct (Nat.eqb (String.length (viper.GetString v AWSGuardDutyPartitionFlag)) 0)
      eqn:Z; [apply length_zero in Z; contradiction|].
    destruct (Nat.eqb (String.length (viper.GetString v AWSGuardDutyRegionFlag)) 0);
      [reflexivity|].
    destruct (existsb (String.eqb (viper.GetString v AWSGuardDutyRegionFlag)) regions)
      eqn:X; [apply member_existsb in X; contradiction | reflexivity].
  - intros regions T P I R NT NJ. rewrite T.
    destruct (Nat.eqb (String.length (viper.GetString v AWSGuardDutyPartitionFlag)) 0)
      eqn:Z; [apply length_zero in Z; contradiction|].
    destruct (Nat.eqb (String.length (viper.GetString v AWSGuardDutyRegionFlag)) 0)
      eqn:Z'; [apply length_zero in Z'; contradiction|].
    apply member_existsb in I. rewrite I. cbn [negb].
    unfold checkOutput. cbn [existsb fst].
    destruct (String.eqb_spec (viper.GetString v OutputFlag) "text"); [contradiction|].
    destruct (String.eqb_spec (viper.GetString v OutputFlag) "json"); [contradiction|].
    reflexivity.
Qed.

End Configuration.


(** *** The resolver *)

Section Resolver.

Context {W : Type}.
Variable env : Env W.

(** X3.  [GetRoleAndUser] sends one request and then, in this order of
    precedence: returns the wrapped error of a lookup that failed or did not
    find exactly one event; panics when the one event found is a nil
    pointer; returns the error of a payload that cannot be decoded; the
    error of a payload without a userIdentity object; the error of an
    identity without a string under arn; and otherwise returns the ARN
    together with the string under userName, or the empty string when there
    is none.  On an error both pointers are nil, on success both are not. *)
Theorem GetRoleAndUser_cases (key value : string) (st : State W) out err w :
  LookupEvents env (lookupEventsInput key value) (world st) = (out, err, w) ->
  exists res,
    GetRoleAndUser env key value st =
      (res, lookedUp st (lookupEventsInput key value) w) /\
    ((exists e,
         (err = Some e /\
          res = Ok (None, None,
                    Some ("Unable to find CloudTrail event for " ++ key ++ " " ++ value ++
                          ": LookupEvents failed with Attribute Key '" ++ key ++
                          "' and Attribute Value '" ++ value ++ "': " ++ e)))) \/
     (err = None /\
      length (cloudtrail.LookupEventsOutput.Events out) <> 1 /\
      res = Ok (None, None,
                Some ("Unable to find CloudTrail event for " ++ key ++ " " ++ value ++
                      ": Expected exactly one event, got " ++
                      itoa (length (cloudtrail.LookupEventsOutput.Events out))))) \/
     (err = None /\
      cloudtrail.LookupEventsOutput.Events out = [None] /\
      res = Panic nilDereference) \/
     (exists event,
         err = None /\ cloudtrail.LookupEventsOutput.Events out = [Some event] /\
         let decoded :=
           Unmarshal env (aws.StringValue (cloudtrail.Event.CloudTrailEvent event)) in
         ((exists e,
              snd decoded = Some e /\
              res = Ok (None, None,
                        Some ("Unable to unmarshal JSON data from CloudTrail event: "
                              ++ e))) \/
          (snd decoded = None /\
           json.asObject (json.get "userIdentity" (fst decoded)) = None /\
           res = Ok (None, None,
                     Some "Could not retrieve userIdentity from JSON object")) \/
          (exists userIdentity,
              snd decoded = None /\
              json.asObject (json.get "userIdentity" (fst decoded)) = Some userIdentity /\
              json.asString (json.get "arn" userIdentity) = None /\
              res = Ok (None, None, Some "Could not retrieve arn from JSON object")) \/
          (exists userIdentity roleArn,
              snd decoded = None /\
              json.asObject (json.get "userIdentity" (fst decoded)) = Some userIdentity /\
              json.asString (json.get "arn" userIdentity) = Some roleArn /\
              res = Ok (Some roleArn,
                        Some (aws.StringValue
                                (json.asString (json.get "userName" userIdentity))),
                        None))))).
Proof.
  intros L. unfold GetRoleAndUser, bind.
  rewrite (LookupEvent_run env _ _ _ _ _ _ L). unfold lookupAnswer.
  destruct err as [e|].
  { eexists. split; [reflexivity|]. left. exists e. split; reflexivity. }
  destruct (cloudtrail.LookupEventsOutput.Events out) as [|[event|] [|b l]] eqn:E.
  - eexists. split; [reflexivity|]. right; left. repeat split. discriminate.
  - cbv zeta.
    destruct (Unmarshal env _) as [data [e|]] eqn:U.
    { eexists. split; [reflexivity|]. right; right; right. exists event.
      split; [reflexivity|]. split; [reflexivity|]. rewrite U. cbn [fst snd].
      left. exists e. split; reflexivity. }
    destruct (json.asObject _) as [userIdentity|] eqn:I.
    2:{ eexists. split; [reflexivity|]. right; right; right. exists event.
        split; [reflexivity|]. split; [reflexivity|]. rewrite U. cbn [fst snd].
        right; left. repeat split. exact I. }
    destruct (json.asString (json.get "arn" userIdentity)) as [roleArn|] eqn:A.
    2:{ eexists. split; [reflexivity|]. right; right; right. exists event.
        split; [reflexivity|]. split; [reflexivity|]. rewrite U. cbn [fst snd].
        right; right; left. exists userIdentity. repeat split; assumption. }
    eexists. split; [reflexivity|]. right; right; right. exists event.
    split; [reflexivity|]. split; [reflexivity|]. rewrite U. cbn [fst snd].
    right; right; right. exists userIdentity, roleArn. repeat split; assumption.
  - eexists. split; [reflexivity|]. right; left. repeat split. discriminate.
  - eexists. split; [reflexivity|]. right; right; left. repeat split.
  - eexists. split; [reflexivity|]. right; left. repeat split. discriminate.
Qed.

(** X4.  A finding whose event carries the empty string as ARN is dropped
    without a trace on standard output: the resolver returns after its
    first request, having printed no identity and logged no error. *)
Theorem empty_arn_dropped_silently (v : viper.Viper) (fd : FindingDetail)
    (st : State W) key value out w event data userIdentity :
  credential fd = Some (key, value) ->
  LookupEvents env (lookupEventsInput key value) (world st) = (out, None, w) ->
  cloudtrail.LookupEventsOutput.Events out = [Some event] ->
  Unmarshal env (aws.StringValue (cloudtrail.Event.CloudTrailEvent event))
    = (data, None) ->
  json.asObject (json.get "userIdentity" data) = Some userIdentity ->
  json.asString (json.get "arn" userIdentity) = Some "" ->
  resolveFinding env v fd st =
    (Ok tt,
     mkState w (stdout st) (calls st ++ [CallLookupEvents (lookupEventsInput key value)])).
Proof.
  intros C L E U I A.
  rewrite (resolveFinding_first_found env v fd key value st out w event _ _ _
             C L E U I A).
  apply afterLookup_skip. reflexivity.
Qed.

(** X5.  The principal id is no fallback for the access key id: when the access
    key id is usable and its lookup fails or does not find exactly one
    event, the resolver logs one error and returns after that single
    request, whatever the principal id is. *)
Theorem principal_id_is_no_fallback (v : viper.Viper) (fd : FindingDetail)
    (st : State W) out err w :
  usable (AccessKeyID fd) GeneratedFindingAccessKeyId ->
  LookupEvents env
    (lookupEventsInput "AccessKeyId" (aws.StringValue (AccessKeyID fd))) (world st)
    = (out, err, w) ->
  err <> None \/ length (cloudtrail.LookupEventsOutput.Events out) <> 1 ->
  exists e,
    resolveFinding env v fd st =
      (Ok tt,
       mkState w
         (stdout st ++
          [PError ("Unable to find role arn and username from access key in finding: "
                   ++ e)])
         (calls st ++
          [CallLookupEvents
             (lookupEventsInput "AccessKeyId" (aws.StringValue (AccessKeyID fd)))])).
Proof.
  intros A L F. apply present_usable in A.
  pose proof (credential_accessKey fd A) as C.
  destruct (lookupAnswer_shape "AccessKeyId" (aws.StringValue (AccessKeyID fd)) out err)
    as [[e X]|[event [-> [E X]]]].
  - eexists.
    rewrite (resolveFinding_first_failed env v fd _ _ st out err w e C L X).
    reflexivity.
  - exfalso. destruct F as [F|F]; [apply F; reflexivity|].
    apply F. rewrite E. reflexivity.
Qed.

End Resolver.

Lemma empty_arn_witness :
  resolveFinding Cases.emptyArn Scenario.v Scenario.detail Scenario.start =
    (Ok tt,
     mkState tt [] [CallLookupEvents (lookupEventsInput "AccessKeyId" "AKIA123")]).
Proof.
  exact (empty_arn_dropped_silently Cases.emptyArn Scenario.v Scenario.detail
           Scenario.start "AccessKeyId" "AKIA123"
           (cloudtrail.LookupEventsOutput.mk [Some Scenario.assumeRoleEvent] None) tt
           Scenario.assumeRoleEvent
           [("userIdentity", json.JObject [("arn", json.JString "")])]
           [("arn", json.JString "")]
           eq_refl eq_refl eq_refl eq_refl eq_refl eq_refl).
Defined.

Lemma GetRoleAndUser_witness :
  exists res,
    GetRoleAndUser Scenario.env "AccessKeyId" "AKIA123" Scenario.start =
      (res, lookedUp Scenario.start (lookupEventsInput "AccessKeyId" "AKIA123") tt).
Proof.
  destruct (GetRoleAndUser_cases Scenario.env "AccessKeyId" "AKIA123" Scenario.start
              (cloudtrail.LookupEventsOutput.mk [Some Scenario.assumeRoleEvent] None)
              None tt eq_refl) as [res [H _]].
  exists res. exact H.
Defined.

Lemma no_fallback_witness :
  usable (PrincipalID Cases.bothDetail) GeneratedFindingPrincipalId /\
  exists e,
    resolveFinding Scenario.env Scenario.v Cases.bothDetail Scenario.start =
      (Ok tt,
       mkState tt
         [PError ("Unable to find role arn and username from access key in finding: "
                  ++ e)]
         [CallLookupEvents (lookupEventsInput "AccessKeyId" "AKIA999")]).
Proof.
  split.
  - exists "AROA123". repeat split; discriminate.
  - assert (A : usable (AccessKeyID Cases.bothDetail) GeneratedFindingAccessKeyId).
    { exists "AKIA999". repeat split; discriminate. }
    assert (N : @length cloudtrail.Event.t [] <> 1) by discriminate.
    exact (principal_id_is_no_fallback Scenario.env Scenario.v Cases.bothDetail
             Scenario.start (cloudtrail.LookupEventsOutput.mk [] None) None tt
             A eq_refl (or_intror N)).
Defined.


(** *** Panics and the exit status *)

Section Run.

Context {W : Type}.
Variable env : Env W.




(** X9.  The exit status tells setup errors apart and nothing else.  It is 2
    exactly for a configuration error and 1 for missing credentials, a
    session that cannot be made or a failing list of detectors.  Once the
    detectors are listed, the status can only be 0: no failure of a page
    request, of a fetch or of a lookup, and no panic, changes it. *)
Theorem exit_status (fuel : nat) (v : viper.Viper) (st : State W) :
  (checkConfig env v <> None -> fst (main env fuel v st) = Some 2%Z) /\
  (checkConfig env v = None ->
   EnvCredentialsGet env (world st) <> None \/
   NewSession env (world st) <> None \/
   snd (fst (ListDetectors env (world st))) <> None ->
   fst (main env fuel v st) = Some 1%Z) /\
  (checkConfig env v = None ->
   EnvCredentialsGet env (world st) = None ->
   NewSession env (world st) = None ->
   snd (fst (ListDetectors env (world st))) = None ->
   fst (main env fuel v st) = Some 0%Z \/ fst (main env fuel v st) = None) /\
  (forall code, fst (main env fuel v st) = Some code ->
                code = 0%Z \/ code = 1%Z \/ code = 2%Z).
Proof.
  unfold main, findGuardDutyUserFunction.
  destruct (checkConfig env v) as [e|];
    [|destruct (EnvCredentialsGet env (world st)) as [e|];
      [|destruct (NewSession env (world st)) as [e|];
        [|destruct (ListDetectors env (world st)) as [[detectors [e|]] w];
          [|destruct (detectorLoop env fuel v _ _) as [[[[]|r]|] st2]]]]];
    cbn [fst snd Fatal];
    (split; [intros H; first [reflexivity | exfalso; apply H; reflexivity]|]);
    (split; [intros H0 H;
             first [reflexivity | discriminate H0
                   | exfalso; destruct H as [H|[H|H]]; apply H; reflexivity]|]);
    (split; [intros H0 H1 H2 H3;
             first [left; reflexivity | right; reflexivity | congruence]|]);
    intros code H; first [discriminate H | injection H as <-; auto].
Qed.

End Run.



(** *** The requests of a run *)

Section Requests.

Context {W : Type}.
Variable env : Env W.
Variable P : Call -> Prop.

Lemma sends_refl (st : State W) : sends P st st.
Proof. exists []. split; [rewrite app_nil_r; reflexivity | constructor]. Qed.

Lemma sends_trans (st1 st2 st3 : State W) :
  sends P st1 st2 -> sends P st2 st3 -> sends P st1 st3.
Proof.
  intros [a [E1 F1]] [b [E2 F2]]. exists (a ++ b)%list. split.
  - rewrite E2, E1, app_assoc. reflexivity.
  - apply Forall_app. split; assumption.
Qed.

Lemma sends_one (st : State W) c w out :
  P c -> sends P st (mkState w out (calls st ++ [c])).
Proof. intros H. exists [c]. split; [reflexivity | constructor; [exact H | constructor]]. Qed.

Lemma sends_same_calls (st st' : State W) :
  calls st' = calls st -> sends P st st'.
Proof.
  intros E. exists []. split; [rewrite app_nil_r; exact E | constructor].
Qed.

Lemma keeps_ret {A : Type} (a : A) : keeps P (@ret W A a).
Proof. intros st. apply sends_refl. Qed.

Lemma keeps_bind {A B : Type} (m : M W A) (k : A -> M W B) :
  keeps P m -> (forall a, keeps P (k a)) -> keeps P (bind m k).
Proof.
  intros Hm Hk st. unfold bind. specialize (Hm st).
  destruct (m st) as [[a|r] st']; cbn [snd] in *.
  - eapply sends_trans; [exact Hm | apply Hk].
  - exact Hm.
Qed.

Lemma keeps_Println (p : Printed) : keeps P (@Println W p).
Proof. intros st. apply sends_same_calls. reflexivity. Qed.

Lemma keeps_deref {A : Type} (p : option A) : keeps P (@deref W A p).
Proof. intros st. unfold deref. destruct p; apply sends_refl. Qed.

Lemma keeps_forEach {A : Type} (body : A -> M W unit) (l : list A) :
  (forall x, keeps P (body x)) -> keeps P (forEach body l).
Proof.
  intros H. induction l as [|x l IH]; cbn [forEach].
  - apply keeps_ret.
  - apply keeps_bind; [apply H | intros _; exact IH].
Qed.

Lemma keeps_printFinding v fd : keeps P (@printFinding W v fd).
Proof.
  intros st. rewrite printFinding_run. apply sends_same_calls. reflexivity.
Qed.

Lemma keeps_LookupEvent key value :
  P (CallLookupEvents (lookupEventsInput key value)) ->
  keeps P (LookupEvent env key value).
Proof.
  intros H st.
  destruct (LookupEvents env (lookupEventsInput key value) (world st))
    as [[out err] w] eqn:L.
  rewrite (LookupEvent_run env _ _ _ _ _ _ L). apply sends_one. exact H.
Qed.

Lemma keeps_GetRoleAndUser key value :
  P (CallLookupEvents (lookupEventsInput key value)) ->
  keeps P (GetRoleAndUser env key value).
Proof.
  intros H st.
  destruct (LookupEvents env (lookupEventsInput key value) (world st))
    as [[out err] w] eqn:L.
  destruct (lookupAnswer_shape key value out err) as [[e A]|[[event|] [-> [E A]]]].
  - rewrite (GetRoleAndUser_failed env _ _ _ _ _ _ _ L A). apply sends_one. exact H.
  - destruct (GetRoleAndUser_found env _ _ _ _ _ _ L E) as [r [G _]].
    rewrite G. apply sends_one. exact H.
  - rewrite (GetRoleAndUser_nil env _ _ _ _ _ L E). apply sends_one. exact H.
Qed.

Lemma keeps_GetUser roleArn :
  P (CallLookupEvents (lookupEventsInput "ResourceName" roleArn)) ->
  keeps P (GetUser env roleArn).
Proof.
  intros H st.
  destruct (LookupEvents env (lookupEventsInput "ResourceName" roleArn) (world st))
    as [[out err] w] eqn:L.
  destruct (GetUser_run env roleArn st out err w L) as [r [E _]].
  rewrite E. apply sends_one. exact H.
Qed.

Lemma keeps_afterLookup v fd roleArn username :
  (forall arn, arn <> "" ->
               P (CallLookupEvents (lookupEventsInput "ResourceName" arn))) ->
  keeps P (afterLookup env v fd roleArn username).
Proof.
  intros H. unfold afterLookup.
  destruct (nilOrEmpty roleArn) eqn:N; [apply keeps_ret|].
  destruct (nilOrEmpty_false _ N) as [arn [-> Harn]].
  destruct (nilOrEmpty username); [|apply keeps_printFinding].
  apply keeps_bind; [apply keeps_GetUser, H, Harn|].
  intros [username' [e|]]; [apply keeps_Println | apply keeps_printFinding].
Qed.

Lemma keeps_resolveFinding v fd :
  (forall value, value <> "" -> value <> GeneratedFindingAccessKeyId ->
                 P (CallLookupEvents (lookupEventsInput "AccessKeyId" value))) ->
  (forall value, value <> "" ->
                 P (CallLookupEvents (lookupEventsInput "ResourceName" value))) ->
  keeps P (resolveFinding env v fd).
Proof.
  intros HA HR. unfold resolveFinding.
  destruct (present (AccessKeyID fd) GeneratedFindingAccessKeyId) eqn:A.
  { apply present_usable in A. destruct A as [s [-> [N1 N2]]].
    apply keeps_bind; [apply keeps_GetRoleAndUser, HA; assumption|].
    intros [[roleArn username] [e|]];
      [apply keeps_Println | apply keeps_afterLookup, HR]. }
  destruct (present (PrincipalID fd) GeneratedFindingPrincipalId) eqn:B.
  { apply present_usable in B. destruct B as [s [-> [N1 N2]]].
    apply keeps_bind; [apply keeps_GetRoleAndUser, HR; assumption|].
    intros [[roleArn username] [e|]];
      [apply keeps_Println | apply keeps_afterLookup, HR]. }
  apply keeps_ret.
Qed.

Lemma keeps_withService fd service : keeps P (@withService W fd service).
Proof.
  intros st.
  destruct (withService_cases fd service st) as [E|[fd' [E _]]]; rewrite E;
    apply sends_refl.
Qed.

Lemma keeps_processFinding v finding :
  (forall value, value <> "" -> value <> GeneratedFindingAccessKeyId ->
                 P (CallLookupEvents (lookupEventsInput "AccessKeyId" value))) ->
  (forall value, value <> "" ->
                 P (CallLookupEvents (lookupEventsInput "ResourceName" value))) ->
  keeps P (processFinding env v finding).
Proof.
  intros HA HR. unfold processFinding.
  destruct finding as [f|]; [|apply keeps_ret].
  apply keeps_bind; [apply keeps_deref|]. intros resource.
  destruct (guardduty.Resource.AccessKeyDetails resource) as [details|].
  - apply keeps_bind.
    + destruct (guardduty.Finding.Service f); [apply keeps_withService | apply keeps_ret].
    + intros fd. apply keeps_resolveFinding; assumption.
  - destruct (viper.GetBool v VerboseFlag); [apply keeps_Println | apply keeps_ret].
Qed.

Lemma keeps_pageBody v detectorID token :
  P (CallListFindings (listFindingsInput v detectorID token)) ->
  (forall ids, ids <> [] ->
               P (CallGetFindings (guardduty.GetFindingsInput.mk detectorID ids))) ->
  (forall value, value <> "" -> value <> GeneratedFindingAccessKeyId ->
                 P (CallLookupEvents (lookupEventsInput "AccessKeyId" value))) ->
  (forall value, value <> "" ->
                 P (CallLookupEvents (lookupEventsInput "ResourceName" value))) ->
  keeps P (pageBody env v detectorID token).
Proof.
  intros HL HG HA HR. unfold pageBody.
  apply keeps_bind.
  { intros st. unfold callListFindings.
    destruct (ListFindings env _ (world st)) as [[out err] w]. cbn [snd].
    apply sends_one. exact HL. }
  intros [findingList [e|]].
  { apply keeps_bind; [apply keeps_Println | intros _; apply keeps_ret]. }
  destruct (guardduty.ListFindingsOutput.FindingIds findingList) as [|i ids] eqn:E;
    cbn [length Nat.eqb]; [apply keeps_ret|].
  apply keeps_bind.
  { intros st. unfold callGetFindings.
    destruct (GetFindings env _ (world st)) as [[out err] w]. cbn [snd].
    apply sends_one. apply HG. discriminate. }
  intros [findings err]. apply keeps_bind.
  { destruct err; [apply keeps_Println | apply keeps_ret]. }
  intros _. apply keeps_bind.
  { apply keeps_forEach. intros x. apply keeps_processFinding; assumption. }
  intros _. destruct (nilOrEmpty _); apply keeps_ret.
Qed.

End Requests.

Section Discipline.

Context {W : Type}.
Variable env : Env W.

Lemma requestOK_pageBody v detectorID token :
  keeps (requestOK v) (pageBody env v detectorID token).
Proof.
  apply keeps_pageBody.
  - reflexivity.
  - intros ids N. exact N.
  - intros value N1 N2. exists "AccessKeyId", value. repeat split; auto.
  - intros value N. exists "ResourceName", value. repeat split; auto.
Qed.

Lemma requestOK_pageLoop fuel v detectorID token (st : State W) :
  sends (requestOK v) st (snd (pageLoop env fuel v detectorID token st)).
Proof.
  revert token st. induction fuel as [|fuel IH]; intros token st.
  - apply sends_refl.
  - cbn [pageLoop]. pose proof (requestOK_pageBody v detectorID token st) as B.
    destruct (pageBody env v detectorID token st) as [[[|t]|r] st']; cbn [snd] in *.
    + exact B.
    + eapply sends_trans; [exact B | apply IH].
    + exact B.
Qed.

Lemma requestOK_detectorLoop fuel v detectorIds (st : State W) :
  sends (requestOK v) st (snd (detectorLoop env fuel v detectorIds st)).
Proof.
  revert st. induction detectorIds as [|d rest IH]; intros st.
  - apply sends_refl.
  - cbn [detectorLoop]. pose proof (requestOK_pageLoop fuel v d None st) as B.
    destruct (pageLoop env fuel v d None st) as [[[[]|r]|] st']; cbn [snd] in *.
    + eapply sends_trans; [exact B | apply IH].
    + exact B.
    + exact B.
Qed.

(** X10.  The requests of a run, however long it is allowed to go on and
    whatever the services answer: none at all, or the list of detectors
    first and once, followed only by page requests that carry the archived
    flag as their one criterion, fetches of findings for identifier lists
    that are not empty, and lookups of one attribute, AccessKeyId or
    ResourceName, with a value that is neither empty nor the placeholder of
    sample findings under AccessKeyId, each asking for at most one event.
    Requests are only ever added to those made before. *)
Theorem requests_of_a_run (fuel : nat) (v : viper.Viper) (st : State W) :
  calls (snd (main env fuel v st)) = calls st \/
  exists rest,
    calls (snd (main env fuel v st)) = (calls st ++ CallListDetectors :: rest)%list /\
    Forall (requestOK v) rest.
Proof.
  unfold main, findGuardDutyUserFunction.
  destruct (checkConfig env v) as [e|]; [left; reflexivity|].
  destruct (EnvCredentialsGet env (world st)) as [e|]; [left; reflexivity|].
  destruct (NewSession env (world st)) as [e|]; [left; reflexivity|].
  destruct (ListDetectors env (world st)) as [[detectors [e|]] w].
  { right. exists []. split; [reflexivity | constructor]. }
  right.
  set (st1 := mkState w (stdout st) (calls st ++ [CallListDetectors])).
  destruct (requestOK_detectorLoop fuel v
              (guardduty.ListDetectorsOutput.DetectorIds detectors) st1)
    as [rest [E F]].
  exists rest. split; [|exact F].
  destruct (detectorLoop env fuel v _ st1) as [[[[]|r]|] st2]; cbn [snd calls] in *;
    rewrite E; unfold st1; cbn [calls]; rewrite <- app_assoc; reflexivity.
Qed.

End Discipline.


(** *** The encoding *)

Lemma distinct_NoDup (l : list string) : distinct l = true -> NoDup l.
Proof.
  induction l as [|x l IH]; cbn [distinct]; intros H; [constructor|].
  apply andb_prop in H. destruct H as [H1 H2]. constructor; [|apply IH, H2].
  intros I. apply negb_true_iff in H1.
  assert (X : existsb (String.eqb x) l = true).
  { apply existsb_exists. exists x. split; [exact I | apply String.eqb_refl]. }
  congruence.
Qed.

Lemma keys_always name p : map fst (always name p) = [name].
Proof. destruct p; reflexivity. Qed.

Lemma Forall_always (Q : string * json.value -> Prop) name p :
  (forall s, Q (name, json.JString s)) -> Q (name, json.JNull) ->
  Forall Q (always name p).
Proof. intros H1 H2. destruct p; repeat constructor; auto. Qed.

Lemma Forall_omitempty (Q : string * json.value -> Prop) name p :
  (forall s, Q (name, json.JString s)) -> Forall Q (omitempty name p).
Proof. intros H. destruct p; repeat constructor; auto. Qed.

(** X16.  The members of an encoding: their names are the eleven names of
    the struct tags in the order of the fields, without those of the
    optional fields that are nil, so no name comes twice; each member is a
    string, or null for one of the four members that are always there;
    and encoding never fails. *)
Theorem Marshal_members (fd : FindingDetail) :
  json.keys (fst (Marshal fd)) = filter (shown fd) allMembers /\
  NoDup (json.keys (fst (Marshal fd))) /\
  (exists members,
      fst (Marshal fd) = json.JObject members /\
      Forall (fun m => (exists s, snd m = json.JString s) \/
                       snd m = json.JNull /\
                       In (fst m) ["id"; "createdAt"; "assumeRoleARN"; "username"])
        members) /\
  snd (Marshal fd) = None.
Proof.
  split; [|split; [|split; [|reflexivity]]].
  - unfold json.keys, Marshal. cbn [fst].
    rewrite !map_app, !keys_always.
    destruct fd as [i c a p r u ip sn api ci co].
    destruct a, p, ip, sn, api, ci, co; reflexivity.
  - unfold json.keys, Marshal. cbn [fst].
    rewrite !map_app, !keys_always.
    destruct (AccessKeyID fd), (PrincipalID fd), (IPAddress fd), (ServiceName fd),
      (API fd), (City fd), (Country fd);
      apply distinct_NoDup; reflexivity.
  - eexists. split; [reflexivity|].
    repeat (apply Forall_app; split);
      first [ apply Forall_always;
              [intros s; left; exists s; reflexivity
              | right; split; [reflexivity | simpl; tauto]]
            | apply Forall_omitempty; intros s; left; exists s; reflexivity ].
Qed.


(** *** Paging *)

Section Paging.

Context {W : Type}.
Variable env : Env W.

Lemma anything_goes (l : list Call) : Forall (fun _ => True) l.
Proof. induction l; constructor; auto. Qed.

(** Every pass through the body starts with the request for the page of its
    token. *)
Lemma pageBody_first_request v detectorID token (st : State W) :
  exists more,
    calls (snd (pageBody env v detectorID token st)) =
      (calls st ++ CallListFindings (listFindingsInput v detectorID token) :: more)%list.
Proof.
  destruct (ListFindings env (listFindingsInput v detectorID token) (world st))
    as [[out [e|]] w] eqn:L.
  { rewrite (pageBody_list_failed env _ _ _ _ _ _ _ L). exists []. reflexivity. }
  destruct (guardduty.ListFindingsOutput.FindingIds out) as [|i ids] eqn:E.
  { rewrite (pageBody_empty env _ _ _ _ _ _ L E). exists []. reflexivity. }
  destruct (GetFindings env
              (guardduty.GetFindingsInput.mk detectorID
                 (guardduty.ListFindingsOutput.FindingIds out)) w)
    as [[findings err] w'] eqn:G.
  assert (N : guardduty.ListFindingsOutput.FindingIds out <> []) by (rewrite E; discriminate).
  rewrite (pageBody_page env v detectorID token st out w findings err w' L N G).
  match goal with |- context [(?m ;; ?k) ?s] => set (run := m ;; k); set (st2 := s) end.
  assert (K : keeps (fun _ => True) run).
  { unfold run. apply keeps_bind.
    - apply keeps_forEach. intros x. apply keeps_processFinding; auto.
    - intros _. unfold nextPage. destruct (nilOrEmpty _); apply keeps_ret. }
  destruct (K st2) as [added [A _]]. rewrite A.
  exists (CallGetFindings
            (guardduty.GetFindingsInput.mk detectorID
               (guardduty.ListFindingsOutput.FindingIds out)) :: added).
  unfold st2. destruct err; cbn [logged fetched listed calls];
    rewrite <- !app_assoc; reflexivity.
Qed.

(** X12.  An empty page ends the paging of a detector, also when the service sent
    a continuation token with it: the token is not looked at, and the loop
    ends after that one request. *)
Theorem empty_page_ends_paging (fuel : nat) (v : viper.Viper)
    (detectorID token : option string) (st : State W) next w :
  ListFindings env (listFindingsInput v detectorID token) (world st) =
    (guardduty.ListFindingsOutput.mk [] next, None, w) ->
  pageLoop env (S fuel) v detectorID token st =
    (Finished (Ok tt),
     mkState w (stdout st)
       (calls st ++ [CallListFindings (listFindingsInput v detectorID token)])).
Proof.
  intros L. apply (pageLoop_empty_page env fuel v detectorID token st _ w L).
  reflexivity.
Qed.

(** X13.  When a pass through the body of the paging loop decides to go round
    again, the token it goes on with is the one it came with if the page
    request failed, and otherwise the token the service returned, which is
    then not empty and came with a page that was not empty.  The next pass
    starts from the state this one left, and its first request is the page
    request with that token. *)
Theorem next_pass_token (fuel : nat) (v : viper.Viper)
    (detectorID token : option string) (st : State W) out err w t st' :
  ListFindings env (listFindingsInput v detectorID token) (world st) = (out, err, w) ->
  pageBody env v detectorID token st = (Ok (Again t), st') ->
  match err with
  | Some _ => t = token
  | None =>
      t = guardduty.ListFindingsOutput.NextToken out /\
      nilOrEmpty t = false /\
      guardduty.ListFindingsOutput.FindingIds out <> []
  end /\
  pageLoop env (S fuel) v detectorID token st = pageLoop env fuel v detectorID t st' /\
  exists more,
    calls (snd (pageBody env v detectorID t st')) =
      (calls st' ++ CallListFindings (listFindingsInput v detectorID t) :: more)%list.
Proof.
  intros L B. split; [|split].
  - destruct err as [e|].
    + rewrite (pageBody_list_failed env _ _ _ _ _ _ _ L) in B. congruence.
    + destruct (guardduty.ListFindingsOutput.FindingIds out) as [|i ids] eqn:E.
      { rewrite (pageBody_empty env _ _ _ _ _ _ L E) in B. discriminate B. }
      destruct (GetFindings env
                  (guardduty.GetFindingsInput.mk detectorID
                     (guardduty.ListFindingsOutput.FindingIds out)) w)
        as [[findings err] w'] eqn:G.
      assert (N : guardduty.ListFindingsOutput.FindingIds out <> [])
        by (rewrite E; discriminate).
      rewrite (pageBody_page env v detectorID token st out w findings err w' L N G) in B.
      unfold bind in B.
      destruct (forEach _ _ _) as [[[]|r] st2]; [|discriminate B].
      rewrite nextPage_run in B.
      destruct (nilOrEmpty (guardduty.ListFindingsOutput.NextToken out)) eqn:Z;
        [discriminate B|].
      injection B as <- _. repeat split; [exact Z | discriminate].
  - cbn [pageLoop]. rewrite B. reflexivity.
  - apply pageBody_first_request.
Qed.

End Paging.

Lemma empty_page_witness :
  pageLoop Cases.paged 1 Scenario.v (Some "d-1") (Some "next") Scenario.start =
    (Finished (Ok tt),
     mkState tt []
       [CallListFindings (listFindingsInput Scenario.v (Some "d-1") (Some "next"))]).
Proof.
  exact (empty_page_ends_paging Cases.paged 0 Scenario.v (Some "d-1") (Some "next")
           Scenario.start (Some "again") tt eq_refl).
Defined.

Lemma next_pass_witness :
  pageLoop Cases.paged 2 Scenario.v (Some "d-1") None Scenario.start =
  pageLoop Cases.paged 1 Scenario.v (Some "d-1") (Some "next")
    (snd (pageBody Cases.paged Scenario.v (Some "d-1") None Scenario.start)).
Proof.
  exact (proj1 (proj2
           (next_pass_token Cases.paged 1 Scenario.v (Some "d-1") None Scenario.start
              (guardduty.ListFindingsOutput.mk [Some "f-1"] (Some "next")) None tt
              (Some "next")
              (snd (pageBody Cases.paged Scenario.v (Some "d-1") None Scenario.start))
              eq_refl eq_refl))).
Defined.


(** *** The lines of a run *)

Section Lines.

Context {W : Type}.
Variable env : Env W.
Variable Q : Printed -> Prop.

Lemma utters_refl (st : State W) : utters Q st st.
Proof. exists []. split; [rewrite app_nil_r; reflexivity | constructor]. Qed.

Lemma utters_trans (st1 st2 st3 : State W) :
  utters Q st1 st2 -> utters Q st2 st3 -> utters Q st1 st3.
Proof.
  intros [a [E1 F1]] [b [E2 F2]]. exists (a ++ b)%list. split.
  - rewrite E2, E1, app_assoc. reflexivity.
  - apply Forall_app. split; assumption.
Qed.

Lemma utters_one (st : State W) p w sent :
  Q p -> utters Q st (mkState w (stdout st ++ [p]) sent).
Proof. intros H. exists [p]. split; [reflexivity | constructor; [exact H | constructor]]. Qed.

Lemma utters_same (st st' : State W) : stdout st' = stdout st -> utters Q st st'.
Proof.
  intros E. exists []. split; [rewrite app_nil_r; exact E | constructor].
Qed.

Lemma speaks_ret {A : Type} (a : A) : speaks Q (@ret W A a).
Proof. intros st. apply utters_refl. Qed.

Lemma speaks_bind {A B : Type} (m : M W A) (k : A -> M W B) :
  speaks Q m -> (forall a, speaks Q (k a)) -> speaks Q (bind m k).
Proof.
  intros Hm Hk st. unfold bind. specialize (Hm st).
  destruct (m st) as [[a|r] st']; cbn [snd] in *.
  - eapply utters_trans; [exact Hm | apply Hk].
  - exact Hm.
Qed.

Lemma speaks_Println (p : Printed) : Q p -> speaks Q (@Println W p).
Proof. intros H st. apply utters_one. exact H. Qed.

Lemma speaks_forEach {A : Type} (body : A -> M W unit) (l : list A) :
  (forall x, speaks Q (body x)) -> speaks Q (forEach body l).
Proof.
  intros H. induction l as [|x l IH]; cbn [forEach].
  - apply speaks_ret.
  - apply speaks_bind; [apply H | intros _; exact IH].
Qed.

Lemma speaks_resolveFinding v fd :
  (forall e, Q (PError e)) ->
  (forall arn user, arn <> "" -> Q (printed v (resolved fd (Some arn) (Some user)))) ->
  speaks Q (resolveFinding env v fd).
Proof.
  intros HE HP st.
  destruct (resolveFinding_outcome env v fd st) as [r [st' [E O]]]. rewrite E. cbn [snd].
  destruct O as [[_ [O|[[e O]|[arn [user [Harn [_ O]]]]]]]|[_ [O _]]].
  - apply utters_same. exact O.
  - exists [PError e]. split; [exact O | constructor; [apply HE | constructor]].
  - eexists. split; [exact O|]. constructor; [apply HP, Harn | constructor].
  - apply utters_same. exact O.
Qed.

Lemma speaks_processFinding v finding :
  (forall e, Q (PError e)) ->
  (forall s, Q (PString s)) ->
  (forall fd arn user,
      arn <> "" -> Q (printed v (resolved fd (Some arn) (Some user)))) ->
  speaks Q (processFinding env v finding).
Proof.
  intros HE HS HP st.
  destruct (processFinding_cases env v finding st)
    as [E|[E|[[f [resource [_ [_ [_ E]]]]]|[f [resource [details [fd [_ [_ [_ [_ [_ [_ E]]]]]]]]]]]]];
    rewrite E.
  - apply utters_refl.
  - apply utters_refl.
  - apply utters_one. apply HS.
  - apply speaks_resolveFinding; [exact HE | apply HP].
Qed.

Lemma speaks_pageBody v detectorID token :
  (forall e, Q (PError e)) ->
  (forall s, Q (PString s)) ->
  (forall fd arn user,
      arn <> "" -> Q (printed v (resolved fd (Some arn) (Some user)))) ->
  speaks Q (pageBody env v detectorID token).
Proof.
  intros HE HS HP. unfold pageBody.
  apply speaks_bind.
  { intros st. unfold callListFindings.
    destruct (ListFindings env _ (world st)) as [[out err] w]. cbn [snd].
    apply utters_same. reflexivity. }
  intros [findingList [e|]].
  { apply speaks_bind; [apply speaks_Println, HE | intros _; apply speaks_ret]. }
  destruct (Nat.eqb _ 0); [apply speaks_ret|].
  apply speaks_bind.
  { intros st. unfold callGetFindings.
    destruct (GetFindings env _ (world st)) as [[out err] w]. cbn [snd].
    apply utters_same. reflexivity. }
  intros [findings err]. apply speaks_bind.
  { destruct err; [apply speaks_Println, HE | apply speaks_ret]. }
  intros _. apply speaks_bind.
  { apply speaks_forEach. intros x. apply speaks_processFinding; assumption. }
  intros _. destruct (nilOrEmpty _); apply speaks_ret.
Qed.

End Lines.

Section Output.

Context {W : Type}.
Variable env : Env W.

Lemma lineOK_printed v fd arn user :
  arn <> "" -> lineOK v (printed v (resolved fd (Some arn) (Some user))).
Proof.
  intros N. unfold printed.
  destruct (String.eqb_spec (viper.GetString v OutputFlag) "json") as [J|J];
    cbn [lineOK]; [|exact I].
  split; [exact J|]. exists arn, user. split; [exact N|]. split.
  - rewrite (required_member _ "assumeRoleARN" AssumedRoleARN);
      [reflexivity | simpl; tauto].
  - rewrite (required_member _ "username" Username);
      [reflexivity | simpl; tauto].
Qed.

Lemma lineOK_pageBody v detectorID token :
  speaks (lineOK v) (pageBody env v detectorID token).
Proof.
  apply speaks_pageBody.
  - intros e. exact I.
  - intros s. exact I.
  - intros fd arn user N. apply lineOK_printed, N.
Qed.

Lemma lineOK_pageLoop fuel v detectorID token (st : State W) :
  utters (lineOK v) st (snd (pageLoop env fuel v detectorID token st)).
Proof.
  revert token st. induction fuel as [|fuel IH]; intros token st.
  - apply utters_refl.
  - cbn [pageLoop]. pose proof (lineOK_pageBody v detectorID token st) as B.
    destruct (pageBody env v detectorID token st) as [[[|t]|r] st']; cbn [snd] in *.
    + exact B.
    + eapply utters_trans; [exact B | apply IH].
    + exact B.
Qed.

Lemma lineOK_detectorLoop fuel v detectorIds (st : State W) :
  utters (lineOK v) st (snd (detectorLoop env fuel v detectorIds st)).
Proof.
  revert st. induction detectorIds as [|d rest IH]; intros st.
  - apply utters_refl.
  - cbn [detectorLoop]. pose proof (lineOK_pageLoop fuel v d None st) as B.
    destruct (pageLoop env fuel v d None st) as [[[[]|r]|] st']; cbn [snd] in *.
    + eapply utters_trans; [exact B | apply IH].
    + exact B.
    + exact B.
Qed.

(** X11.  The lines of a run, however long it is allowed to go on and whatever
    the services answer: lines are only ever added to standard output, and
    every encoded object among them was printed in json mode and has a
    non-empty string as assumeRoleARN member and a string as username member.
    In text mode no encoded object is printed at all. *)
Theorem lines_of_a_run (fuel : nat) (v : viper.Viper) (st : State W) :
  exists added,
    stdout (snd (main env fuel v st)) = (stdout st ++ added)%list /\
    Forall (lineOK v) added /\
    (viper.GetString v OutputFlag <> "json" ->
     forall doc, ~ In (PJSON doc) added).
Proof.
  assert (U : utters (lineOK v) st (snd (main env fuel v st))).
  { unfold main, findGuardDutyUserFunction.
    destruct (checkConfig env v) as [e|]; [apply utters_refl|].
    destruct (EnvCredentialsGet env (world st)) as [e|];
      [apply utters_one; exact I|].
    destruct (NewSession env (world st)) as [e|]; [apply utters_one; exact I|].
    destruct (ListDetectors env (world st)) as [[detectors [e|]] w].
    { cbn [snd Fatal]. exists [PError ("Unable to list Guard Duty detectors: " ++ e)].
      split; [reflexivity | constructor; [exact I | constructor]]. }
    set (st1 := mkState w (stdout st) (calls st ++ [CallListDetectors])).
    pose proof (lineOK_detectorLoop fuel v
                  (guardduty.ListDetectorsOutput.DetectorIds detectors) st1) as D.
    assert (U1 : utters (lineOK v) st st1) by (apply utters_same; reflexivity).
    destruct (detectorLoop env fuel v _ st1) as [[[[]|r]|] st2]; cbn [snd] in *.
    - eapply utters_trans; [exact U1 | exact D].
    - eapply utters_trans; [exact U1|]. eapply utters_trans; [exact D|].
      apply utters_one. exact I.
    - eapply utters_trans; [exact U1 | exact D]. }
  destruct U as [added [E F]]. exists added. split; [exact E|]. split; [exact F|].
  intros N doc H. rewrite Forall_forall in F. destruct (F _ H) as [J _]. contradiction.
Qed.

End Output.


(** *** Termination and the order of the detectors *)

Section Progress.

Context {W : Type}.
Variable env : Env W.

(** X14.  The paging of a detector ends when its page requests do not fail and
    its tokens make progress: if some rank of the tokens goes down from the
    token of a request to the token returned with a page that is not empty,
    then the loop is over within one pass more than the rank of the token it
    starts with, whatever the findings are and whatever the audit log
    answers. *)
Theorem paging_terminates (v : viper.Viper) (detectorID : option string)
    (rank : option string -> nat) :
  (forall token w out err w',
      ListFindings env (listFindingsInput v detectorID token) w = (out, err, w') ->
      err = None /\
      (guardduty.ListFindingsOutput.FindingIds out <> [] ->
       nilOrEmpty (guardduty.ListFindingsOutput.NextToken out) = false ->
       rank (guardduty.ListFindingsOutput.NextToken out) < rank token)) ->
  forall fuel token (st : State W),
    rank token < fuel ->
    exists r st', pageLoop env fuel v detectorID token st = (Finished r, st').
Proof.
  intros H. induction fuel as [|fuel IH]; intros token st Hr; [lia|].
  cbn [pageLoop].
  destruct (ListFindings env (listFindingsInput v detectorID token) (world st))
    as [[out err] w] eqn:L.
  destruct (H _ _ _ _ _ L) as [-> Down].
  destruct (guardduty.ListFindingsOutput.FindingIds out) as [|i ids] eqn:E.
  { rewrite (pageBody_empty env _ _ _ _ _ _ L E). eauto. }
  assert (N : guardduty.ListFindingsOutput.FindingIds out <> [])
    by (rewrite E; discriminate).
  destruct (GetFindings env
              (guardduty.GetFindingsInput.mk detectorID
                 (guardduty.ListFindingsOutput.FindingIds out)) w)
    as [[findings err] w'] eqn:G.
  rewrite (pageBody_page env v detectorID token st out w findings err w' L N G).
  unfold bind.
  destruct (forEach _ _ _) as [[[]|r] st2]; [|eauto].
  rewrite nextPage_run.
  destruct (nilOrEmpty (guardduty.ListFindingsOutput.NextToken out)) eqn:Z; [eauto|].
  apply IH. specialize (Down ltac:(discriminate) eq_refl). lia.
Qed.

Lemma inTurn_nil (v : viper.Viper) (detectorIds : list (option string)) :
  inTurn v detectorIds [].
Proof. destruct detectorIds; [reflexivity | left; reflexivity]. Qed.

Lemma madeFor_pageBody v detectorID token :
  keeps (madeFor detectorID) (pageBody env v detectorID token).
Proof.
  apply keeps_pageBody.
  - reflexivity.
  - intros ids _. reflexivity.
  - intros value _ _. exact I.
  - intros value _. exact I.
Qed.

Lemma madeFor_pageLoop fuel v detectorID token (st : State W) :
  sends (madeFor detectorID) st (snd (pageLoop env fuel v detectorID token st)).
Proof.
  revert token st. induction fuel as [|fuel IH]; intros token st.
  - apply sends_refl.
  - cbn [pageLoop]. pose proof (madeFor_pageBody v detectorID token st) as B.
    destruct (pageBody env v detectorID token st) as [[[|t]|r] st']; cbn [snd] in *.
    + exact B.
    + eapply sends_trans; [exact B | apply IH].
    + exact B.
Qed.

(** The requests of the paging loop of a detector start with the request
    for its first page, and all are made for it. *)
Lemma pageLoop_first_request fuel v detectorID token (st : State W) :
  exists tail,
    calls (snd (pageLoop env (S fuel) v detectorID token st)) =
      (calls st ++ CallListFindings (listFindingsInput v detectorID token) :: tail)%list /\
    Forall (madeFor detectorID) tail.
Proof.
  destruct (madeFor_pageLoop (S fuel) v detectorID token st) as [added [E F]].
  cbn [pageLoop] in *.
  destruct (pageBody_first_request env v detectorID token st) as [more B].
  assert (exists tail,
             added = CallListFindings (listFindingsInput v detectorID token) :: tail)
    as [tail ->].
  { destruct (pageBody env v detectorID token st) as [[[|t]|r] st'] eqn:P;
      cbn [snd] in *.
    - rewrite B in E. apply app_inv_head in E. eauto.
    - destruct (madeFor_pageLoop fuel v detectorID t st') as [later [L _]].
      rewrite L, B, <- app_assoc in E. apply app_inv_head in E.
      cbn [app] in E. eauto.
    - rewrite B in E. apply app_inv_head in E. eauto. }
  exists tail. split; [exact E|]. inversion F; assumption.
Qed.

Lemma detectorLoop_inTurn fuel v detectorIds (st : State W) :
  exists added,
    calls (snd (detectorLoop env fuel v detectorIds st)) = (calls st ++ added)%list /\
    inTurn v detectorIds added.
Proof.
  revert st. induction detectorIds as [|d rest IH]; intros st.
  { exists []. split; [rewrite app_nil_r; reflexivity | reflexivity]. }
  cbn [detectorLoop]. destruct fuel as [|fuel].
  { exists []. split; [rewrite app_nil_r; reflexivity | left; reflexivity]. }
  destruct (pageLoop_first_request fuel v d None st) as [tail [E F]].
  destruct (pageLoop env (S fuel) v d None st) as [[[[]|r]|] st'] eqn:P;
    cbn [snd] in E.
  - destruct (IH st') as [later [L T]].
    exists (CallListFindings (listFindingsInput v d None) :: tail ++ later)%list.
    split.
    + rewrite L, E, <- app_assoc. reflexivity.
    + right. exists tail, later. auto.
  - exists (CallListFindings (listFindingsInput v d None) :: tail ++ [])%list.
    split; [rewrite app_nil_r; exact E|].
    right. exists tail, []. split; [reflexivity|]. split; [exact F | apply inTurn_nil].
  - exists (CallListFindings (listFindingsInput v d None) :: tail ++ [])%list.
    split; [rewrite app_nil_r; exact E|].
    right. exists tail, []. split; [reflexivity|]. split; [exact F | apply inTurn_nil].
Qed.

(** X15.  The detectors are served in turn, in the order in which the
    service lists them.  After the request for the list of detectors, the
    requests of a run fall into consecutive stretches, one for each
    detector of an initial part of that list, in its order: a stretch
    starts with the request for the first page of its detector, with a nil
    token, and after it come only page requests and fetches of findings
    made for that detector, and lookups in the audit log.  No request for a
    detector comes before the
    requests for the detectors listed ahead of it, nor between them. *)
Theorem detectors_in_turn (fuel : nat) (v : viper.Viper) (st : State W)
    (detectors : guardduty.ListDetectorsOutput.t) (w : W) :
  checkConfig env v = None ->
  EnvCredentialsGet env (world st) = None ->
  NewSession env (world st) = None ->
  ListDetectors env (world st) = (detectors, None, w) ->
  exists added,
    calls (snd (main env fuel v st)) = (calls st ++ CallListDetectors :: added)%list /\
    inTurn v (guardduty.ListDetectorsOutput.DetectorIds detectors) added.
Proof.
  intros C G N L. unfold main, findGuardDutyUserFunction. rewrite C, G, N, L.
  set (st1 := mkState w (stdout st) (calls st ++ [CallListDetectors])).
  destruct (detectorLoop_inTurn fuel v
              (guardduty.ListDetectorsOutput.DetectorIds detectors) st1)
    as [added [E T]].
  exists added. split; [|exact T].
  destruct (detectorLoop env fuel v _ st1) as [[[[]|r]|] st2]; cbn [snd calls] in *;
    rewrite E; unfold st1; cbn [calls]; rewrite <- app_assoc; reflexivity.
Qed.

End Progress.

Lemma paging_terminates_witness :
  exists r st',
    pageLoop Cases.paged 2 Scenario.v (Some "d-1") None Scenario.start = (Finished r, st').
Proof.
  refine (paging_terminates Cases.paged Scenario.v (Some "d-1") Cases.pagesAfter _
            2 None Scenario.start _).
  - intros token w out err w' L. destruct token as [t|]; cbn in L.
    + injection L as <- <- _. split; [reflexivity|]. intros N. contradiction N.
      reflexivity.
    + injection L as <- <- _. split; [reflexivity|]. intros _ _. cbn. lia.
  - cbn. lia.
Defined.

Lemma detectors_in_turn_witness :
  exists added,
    calls (snd (main (Cases.twoDetectors None) 2 Scenario.v Scenario.start)) =
      ([] ++ CallListDetectors :: added)%list /\
    inTurn Scenario.v [Some "d-1"; Some "d-2"] added.
Proof.
  exact (detectors_in_turn (Cases.twoDetectors None) 2 Scenario.v Scenario.start
           (guardduty.ListDetectorsOutput.mk [Some "d-1"; Some "d-2"]) tt
           eq_refl eq_refl eq_refl eq_refl).
Defined.


(** *** The direct path and the text block *)

Section Direct.

Context {W : Type}.
Variable env : Env W.

(** X6.  When the event found by the first lookup names the user, no second
    lookup is made: with a non-empty ARN and a non-empty string under
    userName in the decoded identity, the resolver sends that one request
    and prints the finding detail with that ARN as its role and that string
    as its user name: the line printed shows both, as the assumeRoleARN and
    username members in json mode and as the role and user rows in text
    mode. *)
Theorem user_name_from_payload (v : viper.Viper) (fd : FindingDetail) (st : State W)
    key value out w event data userIdentity roleArn userName :
  credential fd = Some (key, value) ->
  LookupEvents env (lookupEventsInput key value) (world st) = (out, None, w) ->
  cloudtrail.LookupEventsOutput.Events out = [Some event] ->
  Unmarshal env (aws.StringValue (cloudtrail.Event.CloudTrailEvent event))
    = (data, None) ->
  json.asObject (json.get "userIdentity" data) = Some userIdentity ->
  json.asString (json.get "arn" userIdentity) = Some roleArn ->
  roleArn <> "" ->
  json.get "userName" userIdentity = Some (json.JString userName) ->
  userName <> "" ->
  resolveFinding env v fd st =
    (Ok tt,
     mkState w
       (stdout st ++
        [printed v
           (mkFindingDetail
              (ID fd) (CreatedAt fd) (AccessKeyID fd) (PrincipalID fd)
              (Some roleArn) (Some userName)
              (IPAddress fd) (ServiceName fd) (API fd) (City fd) (Country fd))])
       (calls st ++ [CallLookupEvents (lookupEventsInput key value)])) /\
  exists line,
    stdout (snd (resolveFinding env v fd st)) = (stdout st ++ [line])%list /\
    showsIdentity v line roleArn userName.
Proof.
  intros C L E U I A Harn Huser Hname.
  rewrite (resolveFinding_first_found env v fd key value st out w event _ _ _
             C L E U I A).
  rewrite Huser. cbn [json.asString aws.StringValue].
  rewrite (afterLookup_direct env v fd (Some roleArn) (Some userName) _
             (nilOrEmpty_Some _ Harn) (nilOrEmpty_Some _ Hname)).
  split; [reflexivity|].
  eexists. split; [reflexivity|]. apply printed_shows.
Qed.

End Direct.

Lemma lineFeeds_app (a b : string) :
  lineFeeds (a ++ b) = lineFeeds a + lineFeeds b.
Proof.
  induction a as [|c a IH]; [reflexivity|].
  cbn [append lineFeeds]. rewrite IH. lia.
Qed.

(** X17.  The text block is the blank line and the ten rows of the template and
    nothing more: it has ten line feeds besides those inside the values it
    shows, so eleven lines whenever no value contains one. *)
Theorem textBlock_line_feeds (fd : FindingDetail) :
  lineFeeds (textBlock fd) =
    10 +
    (lineFeeds (aws.StringValue (ID fd)) +
     lineFeeds (aws.StringValue (CreatedAt fd)) +
     lineFeeds (aws.StringValue (AccessKeyID fd)) +
     lineFeeds (aws.StringValue (PrincipalID fd)) +
     lineFeeds (aws.StringValue (AssumedRoleARN fd)) +
     lineFeeds (aws.StringValue (Username fd)) +
     lineFeeds (aws.StringValue (IPAddress fd)) +
     lineFeeds (aws.StringValue (ServiceName fd)) +
     lineFeeds (aws.StringValue (API fd)) +
     lineFeeds (aws.StringValue (City fd)) +
     lineFeeds (aws.StringValue (Country fd))).
Proof.
  unfold textBlock, template. rewrite !lineFeeds_app.
  change (lineFeeds nl) with 1.
  change (lineFeeds "Finding ID:         ") with 0.
  change (lineFeeds "Finding Created At: ") with 0.
  change (lineFeeds "Access Key ID:      ") with 0.
  change (lineFeeds "Principal ID:       ") with 0.
  change (lineFeeds "Assumed Role ARN:   ") with 0.
  change (lineFeeds "Username:           ") with 0.
  change (lineFeeds "IPv4:               ") with 0.
  change (lineFeeds "Service Name:       ") with 0.
  change (lineFeeds "API:                ") with 0.
  change (lineFeeds "City, Country:      ") with 0.
  change (lineFeeds ", ") with 0.
  lia.
Qed.

Lemma user_name_witness :
  resolveFinding Cases.named Scenario.v Scenario.detail Scenario.start =
    (Ok tt,
     mkState tt
       [PJSON
          (json.JObject
             [("id", json.JString "f-1");
              ("createdAt", json.JString "2020-06-01T00:00:00Z");
              ("accessKeyID", json.JString "AKIA123");
              ("assumeRoleARN", json.JString "arn:aws:iam::111:role/X");
              ("username", json.JString "bob")])]
       [CallLookupEvents (lookupEventsInput "AccessKeyId" "AKIA123")]).
Proof.
  assert (N1 : Scenario.roleX <> "") by discriminate.
  assert (N2 : "bob" <> "") by discriminate.
  exact (proj1
           (user_name_from_payload Cases.named Scenario.v Scenario.detail Scenario.start
              "AccessKeyId" "AKIA123"
              (cloudtrail.LookupEventsOutput.mk [Some Scenario.assumeRoleEvent] None) tt
              Scenario.assumeRoleEvent
              [("userIdentity",
                json.JObject [("arn", json.JString Scenario.roleX);
                              ("userName", json.JString "bob")])]
              [("arn", json.JString Scenario.roleX); ("userName", json.JString "bob")]
              Scenario.roleX "bob"
              eq_refl eq_refl eq_refl eq_refl eq_refl eq_refl N1 eq_refl N2)).
Defined.


(** *** A nil event *)

